(** * auto-osint: the aggregation core

    A shallow embedding of [core/profile_manager.py] (profile store, name
    derivation, summary generator, recursive merge) and of
    [core/scanner.py] (the scan orchestrator), with the properties the
    specification states about them. *)

From Stdlib Require Import String Ascii List ZArith Lia Bool.
From Stdlib Require Import Floats Uint63.
From stdpp Require Import gmap strings.

Import ListNotations.
Local Open Scope string_scope.
Local Open Scope list_scope.

(** ** JSON-like trees

    What [json.load] produces and [json.dump] accepts: [None], booleans,
    integers, floats, strings, lists and string-keyed dictionaries. A Python
    dictionary keeps insertion order, so it is an association list; its keys
    are unique, which [dict_wf] states where a property needs it. *)

Unset Elimination Schemes.
Inductive json : Type :=
| JNull : json
| JBool : bool -> json
| JInt : Z -> json
| JFloat : float -> json
| JStr : string -> json
| JList : list json -> json
| JDict : list (string * json) -> json.
Set Elimination Schemes.

Definition pydict := list (string * json).

Section JsonInduction.
Variable P : json -> Prop.
Hypothesis Hnull : P JNull.
Hypothesis Hbool : forall b, P (JBool b).
Hypothesis Hint : forall z, P (JInt z).
Hypothesis Hfloat : forall f, P (JFloat f).
Hypothesis Hstr : forall s, P (JStr s).
Hypothesis Hlist : forall l, Forall P l -> P (JList l).
Hypothesis Hdict : forall d : pydict, Forall (fun kv => P (snd kv)) d -> P (JDict d).

Fixpoint json_ind (j : json) : P j :=
  match j with
  | JNull => Hnull
  | JBool b => Hbool b
  | JInt z => Hint z
  | JFloat f => Hfloat f
  | JStr s => Hstr s
  | JList l =>
      Hlist l ((fix all (l : list json) : Forall P l :=
                  match l with
                  | [] => @List.Forall_nil _ _
                  | x :: r => @List.Forall_cons _ P x r (json_ind x) (all r)
                  end) l)
  | JDict d =>
      Hdict d ((fix all (d : pydict) : Forall (fun kv => P (snd kv)) d :=
                  match d with
                  | [] => @List.Forall_nil _ _
                  | kv :: r => @List.Forall_cons _ (fun kv => P (snd kv)) kv r (json_ind (snd kv)) (all r)
                  end) d)
  end.
End JsonInduction.

(** ** Dictionary operations *)

(** [d.get(k)] / [d[k]]: the value bound to [k], if any. *)
Fixpoint dict_get (k : string) (d : pydict) : option json :=
  match d with
  | [] => None
  | (k', v) :: r => if String.eqb k k' then Some v else dict_get k r
  end.

(** [k in d] *)
Definition dict_has (k : string) (d : pydict) : bool :=
  match dict_get k d with Some _ => true | None => false end.

(** [d[k] = v]: overwrite in place when [k] is bound, else append. *)
Fixpoint dict_set (k : string) (v : json) (d : pydict) : pydict :=
  match d with
  | [] => [(k, v)]
  | (k', v') :: r =>
      if String.eqb k k' then (k', v) :: r else (k', v') :: dict_set k v r
  end.

Definition dict_keys (d : pydict) : list string := map fst d.

(** Keys are pairwise distinct, as in every Python dictionary. *)
Definition dict_wf (d : pydict) : Prop := NoDup (dict_keys d).

(** ** Merge engine: [_merge_data_structures] *)

Fixpoint _merge_data_structures (existing new : json) {struct new} : json :=
  match existing, new with
  | JDict e, JDict n =>
      (* merged = existing.copy(); for key, value in new.items(): ... *)
      JDict ((fix items (n : pydict) (merged : pydict) {struct n} : pydict :=
                match n with
                | [] => merged
                | (key, value) :: n' =>
                    items n'
                      (match dict_get key merged with
                       | Some old => dict_set key (_merge_data_structures old value) merged
                       | None => dict_set key value merged
                       end)
                end) n e)
  | JList e, JList n => JList (e ++ n)
  | _, _ => new
  end.

(** The loop of the dictionary case, as a function of its own. *)
Fixpoint merge_items (n : pydict) (merged : pydict) : pydict :=
  match n with
  | [] => merged
  | (key, value) :: n' =>
      merge_items n'
        (match dict_get key merged with
         | Some old => dict_set key (_merge_data_structures old value) merged
         | None => dict_set key value merged
         end)
  end.

(** One pass of the loop body, seen from a key [k]. *)
Definition merge_slot (va : option json) (vb : json) : json :=
  match va with
  | Some old => _merge_data_structures old vb
  | None => vb
  end.

(** A scalar is anything that is neither a mapping nor a sequence. *)
Definition is_scalar (j : json) : bool :=
  match j with
  | JList _ | JDict _ => false
  | _ => true
  end.

(** The node reached from [j] by descending through mappings along the keys
    of [p]; sequences and scalars are leaves. *)
Fixpoint lookup_path (p : list string) (j : json) : option json :=
  match p with
  | [] => Some j
  | k :: p' =>
      match j with
      | JDict d =>
          match dict_get k d with
          | Some v => lookup_path p' v
          | None => None
          end
      | _ => None
      end
  end.

(** Every mapping reached through mappings has pairwise distinct keys. *)
Fixpoint tree_wf (j : json) : Prop :=
  match j with
  | JDict d =>
      dict_wf d /\
      (fix values (d : pydict) : Prop :=
         match d with
         | [] => True
         | kv :: r => tree_wf (snd kv) /\ values r
         end) d
  | _ => True
  end.

(** The values of a mapping are well-formed trees. *)
Definition values_wf (d : pydict) : Prop := Forall (fun kv => tree_wf (snd kv)) d.

(** ** Python values at run time

    The profile manager inspects dynamically typed values; an operation
    applied to a value of the wrong type raises. Exceptions are the
    [Raise] outcomes of the [result] monad. *)

Inductive exn : Type :=
| AttributeError  (* no such method on this type: [.get], [.items], ... *)
| TypeError       (* not subscriptable, not iterable, bad index type *)
| KeyError        (* [d[k]] with [k] unbound *)
| IOError.        (* the file cannot be opened *)

Inductive result (A : Type) : Type :=
| Ok (a : A)
| Raise (e : exn).
Arguments Ok {A} a.
Arguments Raise {A} e.

Definition bind {A B : Type} (m : result A) (f : A -> result B) : result B :=
  match m with
  | Ok a => f a
  | Raise e => Raise e
  end.

Declare Scope py_scope.
Delimit Scope py_scope with py.
Notation "x <- m ;; k" := (bind m (fun x => k))
  (at level 100, m at next level, right associativity) : py_scope.
Local Open Scope py_scope.

(** Monadic left fold: a [for] loop whose body may raise. *)
Fixpoint foldM {A B : Type} (f : A -> B -> result A) (l : list B) (a : A) : result A :=
  match l with
  | [] => Ok a
  | x :: r => a' <- f a x ;; foldM f r a'
  end.

(** [bool(j)] *)
Definition truthy (j : json) : bool :=
  match j with
  | JNull => false
  | JBool b => b
  | JInt z => negb (Z.eqb z 0)
  | JFloat f => negb (PrimFloat.eqb f PrimFloat.zero)
  | JStr s => negb (String.eqb s "")
  | JList l => match l with [] => false | _ => true end
  | JDict d => match d with [] => false | _ => true end
  end.

(** [o.get(k, default)] *)
Definition py_get (o : json) (k : string) (default : json) : result json :=
  match o with
  | JDict d => Ok (match dict_get k d with Some v => v | None => default end)
  | _ => Raise AttributeError
  end.

(** [o.items()] *)
Definition py_items (o : json) : result pydict :=
  match o with
  | JDict d => Ok d
  | _ => Raise AttributeError
  end.

(** [o.copy()]: dictionaries and lists have it. *)
Definition py_copy (o : json) : result json :=
  match o with
  | JDict d => Ok (JDict d)
  | JList l => Ok (JList l)
  | _ => Raise AttributeError
  end.

(** [o[k]] for a string [k] *)
Definition py_getitem (o : json) (k : string) : result json :=
  match o with
  | JDict d => match dict_get k d with Some v => Ok v | None => Raise KeyError end
  | _ => Raise TypeError
  end.

(** [o[k] = v] for a string [k]; the updated object *)
Definition py_setitem (o : json) (k : string) (v : json) : result json :=
  match o with
  | JDict d => Ok (JDict (dict_set k v d))
  | _ => Raise TypeError
  end.

(** [o.append(v)]; the updated object *)
Definition py_append (o : json) (v : json) : result json :=
  match o with
  | JList l => Ok (JList (l ++ [v]))
  | _ => Raise AttributeError
  end.

(** [k in s] for strings *)
Fixpoint str_contains (k s : string) : bool :=
  String.prefix k s ||
  match s with
  | EmptyString => false
  | String _ s' => str_contains k s'
  end.

(** [k in o] for a string [k] *)
Definition py_contains (k : string) (o : json) : result bool :=
  match o with
  | JDict d => Ok (dict_has k d)
  | JList l => Ok (existsb (fun x => match x with JStr s => String.eqb s k | _ => false end) l)
  | JStr s => Ok (str_contains k s)
  | _ => Raise TypeError
  end.

(** ** Summary generator: [_generate_summary] *)

Record summary : Type := mk_summary {
  total_scans : Z;
  social_media_profiles : json;
  breaches_found : json;
  public_records : json;
  domains_checked : json;
  images_found : json;
  locations_found : json
}.

Definition summary_init : summary :=
  mk_summary 0 (JInt 0) (JInt 0) (JInt 0) (JInt 0) (JInt 0) (JInt 0).

(** The dictionary the summary is in the source, keys in insertion order. *)
Definition summary_to_json (s : summary) : json :=
  JDict [("total_scans", JInt (total_scans s));
         ("social_media_profiles", social_media_profiles s);
         ("breaches_found", breaches_found s);
         ("public_records", public_records s);
         ("domains_checked", domains_checked s);
         ("images_found", images_found s);
         ("locations_found", locations_found s)].

(** [data.get("summary", {}).get(field, 0)] *)
Definition summary_count (data : json) (field : string) : result json :=
  sub <- py_get data "summary" (JDict []) ;;
  py_get sub field (JInt 0).

(** [scan_data.get("status") == "completed"], for a dictionary [scan_data] *)
Definition status_completed (scan_data : pydict) : bool :=
  match dict_get "status" scan_data with
  | Some (JStr s) => String.eqb s "completed"
  | _ => false
  end.

(** One iteration of the loop over [results.items()]. *)
Definition summary_step (s : summary) (item : string * json) : result summary :=
  let '(search_type, scan_data) := item in
  match scan_data with
  | JDict sd =>
      if status_completed sd then
        let s := mk_summary (total_scans s + 1) (social_media_profiles s)
                   (breaches_found s) (public_records s) (domains_checked s)
                   (images_found s) (locations_found s) in
        let data := match dict_get "data" sd with Some v => v | None => JDict [] end in
        if String.eqb search_type "social" then
          v <- summary_count data "found_profiles" ;;
          Ok (mk_summary (total_scans s) v (breaches_found s) (public_records s)
                (domains_checked s) (images_found s) (locations_found s))
        else if String.eqb search_type "breach" then
          v <- summary_count data "total_breaches" ;;
          Ok (mk_summary (total_scans s) (social_media_profiles s) v (public_records s)
                (domains_checked s) (images_found s) (locations_found s))
        else if String.eqb search_type "public" then
          v <- summary_count data "total_records" ;;
          Ok (mk_summary (total_scans s) (social_media_profiles s) (breaches_found s) v
                (domains_checked s) (images_found s) (locations_found s))
        else if String.eqb search_type "domain" then
          v <- summary_count data "domains_checked" ;;
          Ok (mk_summary (total_scans s) (social_media_profiles s) (breaches_found s)
                (public_records s) v (images_found s) (locations_found s))
        else if String.eqb search_type "images" then
          v <- summary_count data "images_found" ;;
          Ok (mk_summary (total_scans s) (social_media_profiles s) (breaches_found s)
                (public_records s) (domains_checked s) v (locations_found s))
        else if String.eqb search_type "geolocation" then
          v <- summary_count data "total_locations" ;;
          Ok (mk_summary (total_scans s) (social_media_profiles s) (breaches_found s)
                (public_records s) (domains_checked s) (images_found s) v)
        else Ok s
      else Ok s
  | _ => Ok s
  end.

Definition _generate_summary_record (scan_results : json) : result summary :=
  results <- py_get scan_results "results" (JDict []) ;;
  items <- py_items results ;;
  foldM summary_step items summary_init.

Definition _generate_summary (scan_results : json) : result json :=
  s <- _generate_summary_record scan_results ;;
  Ok (summary_to_json s).

(** ** Session merge: [_merge_search_data], [_merge_scan_results] *)

Definition _merge_search_data (existing new : pydict) : pydict :=
  let merged := existing in
  let merged :=
    match dict_get "data" new, dict_get "data" existing with
    | Some nd, Some ed => dict_set "data" (_merge_data_structures ed nd) merged
    | _, _ => merged
    end in
  let merged :=
    match dict_get "scan_time" new with
    | Some t => dict_set "scan_time" t merged
    | None => merged
    end in
  match dict_get "status" new with
  | Some st => dict_set "status" st merged
  | None => merged
  end.

(** One iteration of the loop over [new.get("results", {}).items()];
    [merged] is the shallow copy being updated. *)
Definition merge_results_step (merged : json) (item : string * json) : result json :=
  let '(search_type, new_data) := item in
  current <- py_get merged "results" (JDict []) ;;
  present <- py_contains search_type current ;;
  if negb present then
    (* merged.setdefault("results", {})[search_type] = new_data *)
    slot <- py_setitem current search_type new_data ;;
    py_setitem merged "results" slot
  else
    container <- py_getitem merged "results" ;;
    existing_data <- py_getitem container search_type ;;
    match existing_data, new_data with
    | JDict ed, JDict nd =>
        slot <- py_setitem container search_type (JDict (_merge_search_data ed nd)) ;;
        py_setitem merged "results" slot
    | _, _ => Ok merged
    end.

Definition _merge_scan_results (existing new : json) : result json :=
  merged <- py_copy existing ;;
  new_results <- py_get new "results" (JDict []) ;;
  items <- py_items new_results ;;
  foldM merge_results_step items merged.

(** ** Profile merge: [_merge_profiles] *)

Definition _merge_profiles (existing new : json) : result json :=
  merged <- py_copy existing ;;
  last_updated <- py_getitem new "last_updated" ;;
  merged <- py_setitem merged "last_updated" last_updated ;;
  timestamp <- py_getitem new "last_updated" ;;
  session <- py_getitem new "current_data" ;;
  let scan_entry := JDict [("timestamp", timestamp); ("scan_results", session)] in
  history <- py_getitem merged "scan_history" ;;
  history <- py_append history scan_entry ;;
  merged <- py_setitem merged "scan_history" history ;;
  existing_data <- py_get merged "current_data" (JDict []) ;;
  new_data <- py_getitem new "current_data" ;;
  current_data <- _merge_scan_results existing_data new_data ;;
  merged <- py_setitem merged "current_data" current_data ;;
  current_data <- py_getitem merged "current_data" ;;
  summary <- _generate_summary current_data ;;
  py_setitem merged "summary" summary.

(** ** Targets and dates *)

(** A target is a [Dict[str, str]] of identity attributes. *)
Definition Target := list (string * string).

Fixpoint target_get (k : string) (t : Target) : option string :=
  match t with
  | [] => None
  | (k', v) :: r => if String.eqb k k' then Some v else target_get k r
  end.

(** [target.get(k)] is truthy: bound to a non-empty string. *)
Definition target_field (k : string) (t : Target) : option string :=
  match target_get k t with
  | Some v => if String.eqb v "" then None else Some v
  | None => None
  end.

Definition target_to_json (t : Target) : json :=
  JDict (map (fun kv => (fst kv, JStr (snd kv))) t).

Record datetime : Type := mk_datetime {
  year : nat; month : nat; day : nat;
  hour : nat; minute : nat; second : nat; microsecond : nat
}.

(** Decimal digits of [n], zero-padded (and truncated) to [width]. *)
Fixpoint dec_pad (width n : nat) : string :=
  match width with
  | O => ""
  | S w => dec_pad w (n / 10) ++ String (ascii_of_nat (48 + n mod 10)) ""
  end.

(** [dt.isoformat()] *)
Definition isoformat (dt : datetime) : string :=
  dec_pad 4 (year dt) ++ "-" ++ dec_pad 2 (month dt) ++ "-" ++ dec_pad 2 (day dt)
  ++ "T" ++ dec_pad 2 (hour dt) ++ ":" ++ dec_pad 2 (minute dt) ++ ":"
  ++ dec_pad 2 (second dt)
  ++ match microsecond dt with
     | O => ""
     | us => "." ++ dec_pad 6 us
     end.

(** [dt.strftime('%Y%m%d_%H%M%S')] *)
Definition strftime_stamp (dt : datetime) : string :=
  dec_pad 4 (year dt) ++ dec_pad 2 (month dt) ++ dec_pad 2 (day dt) ++ "_"
  ++ dec_pad 2 (hour dt) ++ dec_pad 2 (minute dt) ++ dec_pad 2 (second dt).

(** [s.split(sep)] for a one-character separator: never empty. *)
Fixpoint split_on (sep : ascii) (s : string) : list string :=
  match s with
  | EmptyString => [""]
  | String c s' =>
      if Ascii.eqb c sep then "" :: split_on sep s'
      else match split_on sep s' with
           | [] => [String c ""]
           | w :: r => String c w :: r
           end
  end.

(** Whitespace as [str.isspace] sees it, on code points below 256. *)
Definition is_space (c : ascii) : bool :=
  let n := nat_of_ascii c in
  (((9 <=? n) && (n <=? 13)) || ((28 <=? n) && (n <=? 32))
   || (n =? 133) || (n =? 160))%nat.

(** [s.split()]: the maximal runs of non-whitespace characters. *)
Fixpoint split_ws_from (s word : string) : list string :=
  match s with
  | EmptyString => if String.eqb word "" then [] else [word]
  | String c s' =>
      if is_space c then
        if String.eqb word "" then split_ws_from s' ""
        else word :: split_ws_from s' ""
      else split_ws_from s' (word ++ String c "")
  end.

Definition split_ws (s : string) : list string := split_ws_from s "".

(** [OSINTScanner.validate_target]: some identity field is set. *)
Definition validate_target (target : Target) : bool :=
  existsb (fun field => match target_field field target with
                        | Some _ => true
                        | None => false
                        end)
    ["email"; "username"; "full_name"; "phone"; "domain"].

(** ** Environment

    The clock and whatever the collectors talk to are outside the program:
    a world that every reading or call may change. *)

Class Runtime : Type := {
  World : Type;
  datetime_now : World -> datetime * World;   (* [datetime.now()] *)
  time_time : World -> float * World          (* [time.time()] *)
}.

(** A persisted file: JSON text (given by the tree it parses to, which is the
    tree [json.dump] wrote), text that [json.load] rejects with
    [JSONDecodeError], or a file that exists and cannot be opened. *)
Inductive file : Type :=
| FileJson (j : json)
| FileCorrupt (text : string)
| FileUnreadable.

Section Core.
Context {R : Runtime}.

(** ** Profile identifier: [_generate_profile_name] *)

Definition _generate_profile_name (target : Target) (w : World) : string * World :=
  match target_field "username" target with
  | Some username => (("profile_" ++ username)%string, w)
  | None =>
  match target_field "email" target with
  | Some email => (("profile_" ++ hd "" (split_on "@" email))%string, w)
  | None =>
  match target_field "domain" target with
  | Some domain => (("profile_" ++ domain)%string, w)
  | None =>
  let fallback :=
    let '(now, w') := datetime_now w in
    (("profile_" ++ strftime_stamp now)%string, w') in
  match target_field "full_name" target with
  | Some full_name =>
      match split_ws full_name with
      | first :: second :: _ => (("profile_" ++ first ++ "_" ++ second)%string, w)
      | _ => fallback
      end
  | None => fallback
  end end end end.

(** ** Profile store *)

(** The profiles directory: [<profile_name>.json] for each stored name. *)
Record Store : Type := mk_store { files : gmap string file }.

(** [load_profile] *)
Definition load_profile (st : Store) (profile_name : string) : option json :=
  match files st !! profile_name with
  | None => None                          (* not profile_file.exists() *)
  | Some (FileJson j) => Some j           (* json.load(f) *)
  | Some (FileCorrupt _) => None          (* json.JSONDecodeError *)
  | Some FileUnreadable => None           (* IOError *)
  end.


(** [with open(profile_file, 'w') as f: json.dump(profile_data, f)] *)
Definition write_profile (st : Store) (profile_name : string) (profile_data : json)
  : result Store :=
  match files st !! profile_name with
  | Some FileUnreadable => Raise IOError
  | _ => Ok (mk_store (<[profile_name := FileJson profile_data]> (files st)))
  end.

(** The dictionary [save_profile] builds before it looks for a stored
    profile. *)
Definition profile_record (target : Target) (profile_name : string)
    (created updated : datetime) (scan_results summary : json) : json :=
  JDict [("target", target_to_json target);
         ("profile_name", JStr profile_name);
         ("created_at", JStr (isoformat created));
         ("last_updated", JStr (isoformat updated));
         ("scan_history", JList []);
         ("current_data", scan_results);
         ("summary", summary)].

(** The entry [_merge_profiles] appends to [scan_history]. *)
Definition history_entry (updated : datetime) (session : json) : json :=
  JDict [("timestamp", JStr (isoformat updated)); ("scan_results", session)].

(** [if not profile_name: profile_name = self._generate_profile_name(target)] *)
Definition resolve_name (target : Target) (profile_name : option string) (w : World)
  : string * World :=
  match profile_name with
  | Some n => if String.eqb n "" then _generate_profile_name target w else (n, w)
  | None => _generate_profile_name target w
  end.

(** [save_profile]: the name it returns and the store it leaves, or the
    exception that escapes; the world after its clock readings. *)
Definition save_profile (target : Target) (scan_results : json)
    (profile_name : option string) (st : Store) (w : World)
  : result (string * Store) * World :=
  let '(profile_name, w) := resolve_name target profile_name w in
  let '(created, w) := datetime_now w in
  let '(updated, w) := datetime_now w in
  (summary <- _generate_summary scan_results ;;
   let profile_data :=
     profile_record target profile_name created updated scan_results summary in
   profile_data <-
     match load_profile st profile_name with
     | Some existing_profile =>
         if truthy existing_profile
         then _merge_profiles existing_profile profile_data
         else Ok profile_data
     | None => Ok profile_data
     end ;;
   st' <- write_profile st profile_name profile_data ;;
   Ok (profile_name, st'),
   w).

(** A sequence of saves under one target and one name argument, stopping at
    the first exception. *)
Fixpoint save_all (target : Target) (profile_name : option string)
    (sessions : list json) (st : Store) (w : World) : result Store * World :=
  match sessions with
  | [] => (Ok st, w)
  | s :: rest =>
      match save_profile target s profile_name st w with
      | (Ok (_, st'), w') => save_all target profile_name rest st' w'
      | (Raise e, w') => (Raise e, w')
      end
  end.

(** ** Scan orchestrator: [OSINTScanner.scan_target] *)

(** What [scanner.scan(target, nsfw=nsfw)] does: returns a payload or raises
    an [Exception] whose [str] is the message. *)
Inductive outcome : Type :=
| Returned (data : json)
| Raised (message : string).

Definition collector := Target -> bool -> World -> outcome * World.

(** [self.scanners]: category name to collector. *)
Definition registry := list (string * collector).

Fixpoint scanners_get (k : string) (scanners : registry) : option collector :=
  match scanners with
  | [] => None
  | (k', c) :: r => if String.eqb k k' then Some c else scanners_get k r
  end.

(** The six categories [__init__] registers. *)
Definition OSINTScanner_init (social breach public images geolocation domain : collector)
  : registry :=
  [("social", social); ("breach", breach); ("public", public);
   ("images", images); ("geolocation", geolocation); ("domain", domain)].

Inductive log_level : Type := INFO | WARNING | ERROR.

(** The logger calls of [scan_target], by their message. *)
Inductive log_event : Type :=
| StartingScan (target : Target)
| RunningScan (search_type : string)
| ScanCompleted (search_type : string) (scan_time : float)
| ErrorInScan (search_type : string) (message : string)
| UnknownSearchType (search_type : string).

Definition level_of (e : log_event) : log_level :=
  match e with
  | ErrorInScan _ _ => ERROR
  | UnknownSearchType _ => WARNING
  | _ => INFO
  end.

(** The category an event is about. *)
Definition event_type (e : log_event) : option string :=
  match e with
  | StartingScan _ => None
  | RunningScan k | ScanCompleted k _ | ErrorInScan k _ | UnknownSearchType k => Some k
  end.

(** The two shapes of a category's slot in [results["results"]]. *)
Definition completed_entry (scan_results : json) (scan_time : float) : json :=
  JDict [("data", scan_results); ("scan_time", JFloat scan_time);
         ("status", JStr "completed")].

Definition failed_entry (e : string) : json :=
  JDict [("data", JDict []); ("error", JStr e); ("status", JStr "failed")].

(** State of the loop: [results["results"]], the log so far, the world. *)
Record scan_state : Type := mk_scan_state {
  st_results : pydict;
  st_log : list log_event;
  st_world : World
}.

(** One iteration of [for search_type in search_types]. *)
Definition scan_step (scanners : registry) (target : Target) (nsfw : bool)
    (s : scan_state) (search_type : string) : scan_state :=
  match scanners_get search_type scanners with
  | Some scanner =>
      let log := st_log s ++ [RunningScan search_type] in
      let '(start_time, w) := time_time (st_world s) in
      match scanner target nsfw w with
      | (Returned scan_results, w) =>
          let '(end_time, w) := time_time w in
          let scan_time := PrimFloat.sub end_time start_time in
          mk_scan_state
            (dict_set search_type (completed_entry scan_results scan_time)
               (st_results s))
            (log ++ [ScanCompleted search_type scan_time])
            w
      | (Raised e, w) =>
          mk_scan_state
            (dict_set search_type (failed_entry e) (st_results s))
            (log ++ [ErrorInScan search_type e])
            w
      end
  | None =>
      mk_scan_state (st_results s) (st_log s ++ [UnknownSearchType search_type])
        (st_world s)
  end.

Definition scan_loop (scanners : registry) (target : Target) (nsfw : bool)
    (search_types : list string) (s : scan_state) : scan_state :=
  fold_left (scan_step scanners target nsfw) search_types s.

(** [scan_target]: the session it returns, what it logged, and the world
    it leaves. *)
Definition scan_target (scanners : registry) (target : Target)
    (search_types : list string) (nsfw : bool) (w : World)
  : json * list log_event * World :=
  let '(now, w) := datetime_now w in
  let s := scan_loop scanners target nsfw search_types
             (mk_scan_state [] [StartingScan target] w) in
  (JDict [("target", target_to_json target);
          ("scan_time", JStr (isoformat now));
          ("search_types", JList (map JStr search_types));
          ("results", JDict (st_results s))],
   st_log s, st_world s).

(** ** The specification's reading of the operations *)

(** The precedence list of the specification for the derived name: the
    rule that applies first, if any of the four identity rules does. *)
Definition identity_name (target : Target) : option string :=
  match target_field "username" target with
  | Some username => Some ("profile_" ++ username)%string
  | None =>
  match target_field "email" target with
  | Some email => Some ("profile_" ++ hd "" (split_on "@" email))%string
  | None =>
  match target_field "domain" target with
  | Some domain => Some ("profile_" ++ domain)%string
  | None =>
  match target_field "full_name" target with
  | Some full_name =>
      if (2 <=? length (split_ws full_name))%nat
      then Some ("profile_" ++ nth 0 (split_ws full_name) ""
                 ++ "_" ++ nth 1 (split_ws full_name) "")%string
      else None
  | None => None
  end end end end.

(** The session a history entry holds. *)
Definition entry_session (entry : json) : option json :=
  match entry with
  | JDict d => dict_get "scan_results" d
  | _ => None
  end.



End Core.

(** ** Sample environment and inputs *)

(** Trees for the merge engine. *)
Definition sample_tree : json :=
  JDict [("platforms", JDict [("github", JList [JStr "alice"])]);
         ("summary", JDict [("found_profiles", JInt 2)])].

Definition sample_existing : pydict :=
  [("tags", JList [JStr "x"]); ("name", JStr "old"); ("only_a", JInt 1)].
Definition sample_new : pydict :=
  [("name", JStr "new"); ("tags", JList [JStr "y"; JStr "z"]); ("only_b", JNull)].

(** A clock that advances one second per reading, from 2024-01-02 03:04:00,
    and a timer that advances one unit per reading. *)
Definition sample_runtime : Runtime := {|
  World := nat;
  datetime_now := fun n => (mk_datetime 2024 1 2 3 4 n 0, S n);
  time_time := fun n => (PrimFloat.of_uint63 (Uint63.of_Z (Z.of_nat n)), S n)
|}.

Definition empty_store : Store := mk_store ∅.

Definition alice : Target := [("username", "alice")].

(** A session as [scan_target] shapes it, for one category. *)
Definition session_of (target : Target) (category : string) (data : json) : json :=
  JDict [("target", target_to_json target);
         ("scan_time", JStr "2024-01-02T03:04:00");
         ("search_types", JList [JStr category]);
         ("results",
          JDict [(category,
                  JDict [("data", data);
                         ("scan_time", JFloat PrimFloat.one);
                         ("status", JStr "completed")])])].

Definition social_session : json :=
  session_of alice "social" (JDict [("summary", JDict [("found_profiles", JInt 2)])]).

Definition social_session_flat : json :=
  session_of alice "social" (JDict [("found_profiles", JInt 2)]).

Definition breach_session : json :=
  session_of alice "breach" (JDict [("summary", JDict [("total_breaches", JInt 1)])]).

(** A collector that always fails and one that always answers. *)
Definition failing_collector : @collector sample_runtime :=
  fun _ _ w => (Raised "connection refused", S w).

Definition answering_collector : @collector sample_runtime :=
  fun _ _ w => (Returned (JDict [("summary", JDict [("total_breaches", JInt 1)])]), S w).

Definition sample_scanners : @registry sample_runtime :=
  OSINTScanner_init failing_collector answering_collector answering_collector
    answering_collector answering_collector answering_collector.

(** The store after the first and after the second save of the scenario:
    [alice] scanned for [social], then for [breach]. *)
Definition store_after (sessions : list json) : Store :=
  match @save_all sample_runtime alice None sessions empty_store 0%nat with
  | (Ok st, _) => st
  | (Raise _, _) => empty_store
  end.

Definition store_after_first : Store := store_after [social_session].
Definition store_after_second : Store := store_after [social_session; breach_session].

(** * The rest of the aggregation core

    The functions around the ones above: what the session merge does to a
    results mapping, the listing of the store, the command line's choice of
    categories, the configuration lookups. *)

(** ** The session merge, seen on the results mapping *)

(** What one iteration of the loop of [_merge_scan_results] does to
    [merged["results"]] when that is a dictionary: a new category is
    inserted, two dictionaries are merged by [_merge_search_data], and
    anything else leaves the stored entry alone. *)
Definition results_step (results : pydict) (item : string * json) : pydict :=
  let '(search_type, new_data) := item in
  match dict_get search_type results with
  | None => dict_set search_type new_data results
  | Some (JDict ed) =>
      match new_data with
      | JDict nd => dict_set search_type (JDict (_merge_search_data ed nd)) results
      | _ => results
      end
  | Some _ => results
  end.

(** [merged.get("results", {})] when that is a dictionary. *)
Definition results_of (session : pydict) : option pydict :=
  match dict_get "results" session with
  | None => Some []
  | Some (JDict r) => Some r
  | Some _ => None
  end.

(** A tree for the key-order and identity laws of the merge. *)
Definition sample_nested : json :=
  JDict [("summary", JDict [("found_profiles", JInt 1)]);
         ("platforms", JDict [("gitlab", JList [JStr "alice"])]);
         ("checked_at", JStr "2024-01-03")].

(** The stored entry of a category after a new entry for it came in. *)
Definition merge_entry (stored : option json) (new_data : json) : json :=
  match stored with
  | None => new_data
  | Some (JDict ed) =>
      match new_data with
      | JDict nd => JDict (_merge_search_data ed nd)
      | _ => JDict ed
      end
  | Some e => e
  end.

Definition fields_of (j : json) : pydict :=
  match j with
  | JDict d => d
  | _ => []
  end.

Definition results_fields (j : json) : pydict :=
  match results_of (fields_of j) with
  | Some r => r
  | None => []
  end.

(** ** The summary, entry by entry *)

(** [isinstance(scan_data, dict) and scan_data.get("status") == "completed"] *)
Definition entry_completed (scan_data : json) : bool :=
  match scan_data with
  | JDict sd => status_completed sd
  | _ => false
  end.

(** [scan_data.get("data", {})] of a dictionary entry *)
Definition entry_data (scan_data : json) : json :=
  match scan_data with
  | JDict sd => match dict_get "data" sd with Some d => d | None => JDict [] end
  | _ => JDict []
  end.

(** The categories [_generate_summary] knows, each with the key it reads
    under [data["summary"]]. *)
Definition category_counters : list (string * string) :=
  [("social", "found_profiles"); ("breach", "total_breaches");
   ("public", "total_records"); ("domain", "domains_checked");
   ("images", "images_found"); ("geolocation", "total_locations")].

Definition known_category (search_type : string) : bool :=
  existsb (fun ck => String.eqb search_type (fst ck)) category_counters.

(** The counter of the summary a category writes. *)
Definition summary_field (search_type : string) (s : summary) : option json :=
  if String.eqb search_type "social" then Some (social_media_profiles s)
  else if String.eqb search_type "breach" then Some (breaches_found s)
  else if String.eqb search_type "public" then Some (public_records s)
  else if String.eqb search_type "domain" then Some (domains_checked s)
  else if String.eqb search_type "images" then Some (images_found s)
  else if String.eqb search_type "geolocation" then Some (locations_found s)
  else None.

(** A payload [data.get("summary", {}).get(key, 0)] can be read from: a
    dictionary whose [summary], when it has one, is a dictionary. *)
Definition payload_ok (data : json) : bool :=
  match data with
  | JDict d =>
      match dict_get "summary" d with
      | None | Some (JDict _) => true
      | Some _ => false
      end
  | _ => false
  end.

(** What is read from such a payload. *)
Definition count_value (data : json) (key : string) : json :=
  match data with
  | JDict d =>
      match dict_get "summary" d with
      | Some (JDict s) => match dict_get key s with Some v => v | None => JInt 0 end
      | _ => JInt 0
      end
  | _ => JInt 0
  end.

(** An entry the loop of [_generate_summary] gets past: not a completed
    entry of a known category, or one with a readable payload. *)
Definition item_ok (item : string * json) : bool :=
  negb (entry_completed (snd item) && known_category (fst item))
  || payload_ok (entry_data (snd item)).

(** Sessions for the summary: a failed category beside a completed one, and
    a completed category whose payload is a list. *)
Definition mixed_session : json :=
  JDict [("results",
          JDict [("social", JDict [("data", JDict []); ("error", JStr "timeout");
                                   ("status", JStr "failed")]);
                 ("breach", JDict [("data", JDict [("summary",
                                                    JDict [("total_breaches", JInt 4)])]);
                                   ("status", JStr "completed")]);
                 ("darkweb", JDict [("data", JList []); ("status", JStr "completed")])])].

Definition list_payload_session : json :=
  JDict [("results",
          JDict [("social", JDict [("data", JList [JStr "alice"]);
                                   ("status", JStr "completed")])])].


Definition store_with_array : Store :=
  mk_store {[ "profile_alice" := FileJson social_session;
              "notes" := FileJson (JList [JStr "todo"]) ]}.

(** ** Listing the store: [list_profiles] *)

(** [len(o)] *)
Definition py_len (o : json) : result nat :=
  match o with
  | JList l => Ok (length l)
  | JDict d => Ok (length d)
  | JStr s => Ok (String.length s)
  | _ => Raise TypeError
  end.

(** The record [list_profiles] builds from one parsed file; [stem] is the
    file name without [.json] and [path_of stem] is [str(profile_file)]. *)
Definition profile_metadata (path_of : string -> string) (stem : string)
    (profile_data : json) : result json :=
  name <- py_get profile_data "profile_name" (JStr stem) ;;
  target <- py_get profile_data "target" (JDict []) ;;
  created_at <- py_get profile_data "created_at" (JStr "") ;;
  last_updated <- py_get profile_data "last_updated" (JStr "") ;;
  history <- py_get profile_data "scan_history" (JList []) ;;
  scan_count <- py_len history ;;
  Ok (JDict [("name", name);
             ("target", target);
             ("created_at", created_at);
             ("last_updated", last_updated);
             ("scan_count", JInt (Z.of_nat scan_count));
             ("file_path", JStr (path_of stem))]).

(** The loop over [self.profiles_dir.glob("*.json")]; [glob] lists the stems
    in the order the directory yields them. A file that does not parse or
    cannot be opened is skipped ([continue]); any other exception escapes. *)
Fixpoint collect_profiles (path_of : string -> string) (st : Store)
    (glob : list string) (profiles : list json) : result (list json) :=
  match glob with
  | [] => Ok profiles
  | stem :: rest =>
      match files st !! stem with
      | Some (FileJson profile_data) =>
          record <- profile_metadata path_of stem profile_data ;;
          collect_profiles path_of st rest (profiles ++ [record])
      | _ => collect_profiles path_of st rest profiles
      end
  end.

(** [x["last_updated"]] when it is a string. *)
Definition last_updated_key (record : json) : option string :=
  match record with
  | JDict d =>
      match dict_get "last_updated" d with
      | Some (JStr s) => Some s
      | _ => None
      end
  | _ => None
  end.

Fixpoint keyed_records (records : list json) : option (list (string * json)) :=
  match records with
  | [] => Some []
  | r :: rest =>
      match last_updated_key r, keyed_records rest with
      | Some k, Some krest => Some ((k, r) :: krest)
      | _, _ => None
      end
  end.

(** Insertion into a list in descending key order, before the first entry
    whose key is not greater: entries with equal keys keep their order. *)
Fixpoint insert_desc (key : string) (record : json) (sorted : list (string * json))
  : list (string * json) :=
  match sorted with
  | [] => [(key, record)]
  | (key', record') :: rest =>
      if String.ltb key key'
      then (key', record') :: insert_desc key record rest
      else (key, record) :: sorted
  end.

(** [sorted(profiles, key=lambda x: x["last_updated"], reverse=True)] for
    string keys, which Python compares by code point: the stable sort in
    descending order. When some key is not a string the outcome (an order or
    a [TypeError]) depends on Python's comparison of other values and is
    outside this model: [None]. *)
Definition sorted_by_last_updated (profiles : list json) : option (list json) :=
  match keyed_records profiles with
  | Some keyed =>
      Some (map snd (fold_right (fun kr acc => insert_desc (fst kr) (snd kr) acc)
                       [] keyed))
  | None => None
  end.

(** [list_profiles] *)
Definition list_profiles (path_of : string -> string) (st : Store)
    (glob : list string) : result (option (list json)) :=
  profiles <- collect_profiles path_of st glob [] ;;
  Ok (sorted_by_last_updated profiles).


(** Keys in descending order, neighbour by neighbour. *)
Fixpoint descending (keys : list string) : Prop :=
  match keys with
  | a :: (b :: _) as rest => String.leb b a = true /\ descending rest
  | _ => True
  end.

Definition sample_path (stem : string) : string :=
  ("profiles/" ++ stem ++ ".json")%string.

(** A store with two profiles and a corrupt file. *)
Definition listing_store : Store :=
  mk_store {[ "profile_alice" :=
                FileJson (JDict [("profile_name", JStr "profile_alice");
                                 ("last_updated", JStr "2024-01-02T03:04:01");
                                 ("scan_history", JList [])]);
              "profile_bob" :=
                FileJson (JDict [("profile_name", JStr "profile_bob");
                                 ("last_updated", JStr "2024-02-01T00:00:00");
                                 ("scan_history", JList [JNull])]);
              "broken" := FileCorrupt "{" ]}.

(** ** The scanner's registry and the command line *)

Section Registry.
Context {R : Runtime}.

(** [OSINTScanner.get_available_scanners] *)
Definition get_available_scanners (scanners : registry) : list string :=
  map fst scanners.


(** What a slot of [results] can hold: an entry made from a run of the
    category's own collector. *)
Definition slot_of_collector (scanners : registry) (target : Target) (nsfw : bool)
    (k : string) (v : json) : Prop :=
  exists c, scanners_get k scanners = Some c /\
    ((exists w data t, fst (c target nsfw w) = Returned data /\
                       v = completed_entry data t) \/
     (exists w message, fst (c target nsfw w) = Raised message /\
                        v = failed_entry message)).

End Registry.

(** The search flags of the command line ([main.py]). *)
Record search_args : Type := mk_search_args {
  arg_social : bool;
  arg_breach : bool;
  arg_public : bool;
  arg_images : bool;
  arg_geolocation : bool;
  arg_full : bool
}.

(** The search types [main] derives from the flags. *)
Definition select_search_types (args : search_args) : list string :=
  if arg_full args
  then ["social"; "breach"; "public"; "images"; "geolocation"]
  else (if arg_social args then ["social"] else [])
       ++ (if arg_breach args then ["breach"] else [])
       ++ (if arg_public args then ["public"] else [])
       ++ (if arg_images args then ["images"] else [])
       ++ (if arg_geolocation args then ["geolocation"] else []).

(** ** Configuration ([utils/config.py]) *)

(** [get_api_key]: the top-level binding when there is one, else the
    binding under ["api_keys"], else the empty string. *)
Definition get_api_key (config : pydict) (key_name : string) : result json :=
  if dict_has key_name config then py_getitem (JDict config) key_name
  else if dict_has "api_keys" config then
    api_keys <- py_getitem (JDict config) "api_keys" ;;
    present <- py_contains key_name api_keys ;;
    if present then
      api_keys <- py_getitem (JDict config) "api_keys" ;;
      py_getitem api_keys key_name
    else Ok (JStr "")
  else Ok (JStr "").

Definition required_keys : list string :=
  ["haveibeenpwned_api_key"; "dehashed_api_key"; "veriphone_api_key";
   "whoisxmlapi_key"; "tineye_api_key"; "peoplefinder_api_key";
   "courtlistener_api_key"].

(** The loop of [validate_config] that collects [missing_keys]. *)
Fixpoint missing_keys_loop (config : pydict) (keys missing : list string)
  : result (list string) :=
  match keys with
  | [] => Ok missing
  | key :: rest =>
      value <- get_api_key config key ;;
      if negb (truthy value)
      then missing_keys_loop config rest (missing ++ [key])
      else missing_keys_loop config rest missing
  end.

(** [validate_config] *)
Definition validate_config (config : pydict) : result json :=
  missing_keys <- missing_keys_loop config required_keys [] ;;
  Ok (JDict [("valid", JBool (Nat.eqb (length missing_keys) 0));
             ("missing_keys", JList (map JStr missing_keys));
             ("total_keys", JInt (Z.of_nat (length required_keys)));
             ("available_keys",
              JInt (Z.of_nat (length required_keys) - Z.of_nat (length missing_keys)))]).

(** The environment variables [_load_env_config] reads, each with the
    configuration key it sets. *)
Definition env_mappings : list (string * string) :=
  [("HIBP_API_KEY", "haveibeenpwned_api_key");
   ("DEHASHED_API_KEY", "dehashed_api_key");
   ("VERIPHONE_API_KEY", "veriphone_api_key");
   ("WHOISXMLAPI_KEY", "whoisxmlapi_key");
   ("TINEYE_API_KEY", "tineye_api_key");
   ("PEOPLEFINDER_API_KEY", "peoplefinder_api_key");
   ("COURTLISTENER_API_KEY", "courtlistener_api_key")].

(** One iteration of the loop of [_load_env_config]; [getenv] is
    [os.getenv]. *)
Definition env_step (getenv : string -> option string) (env_config : pydict)
    (mapping : string * string) : pydict :=
  match getenv (fst mapping) with
  | Some value =>
      if String.eqb value "" then env_config
      else dict_set (snd mapping) (JStr value) env_config
  | None => env_config
  end.

(** [_load_env_config] *)
Definition _load_env_config (getenv : string -> option string) : pydict :=
  fold_left (env_step getenv) env_mappings [].

(** [o.update(other)] *)
Definition py_update (o : json) (other : pydict) : result json :=
  match o with
  | JDict d => Ok (JDict (fold_left (fun acc kv => dict_set (fst kv) (snd kv) acc) other d))
  | _ => Raise AttributeError
  end.

(** [load_config]: [config_file] is what is at the path, if anything. A
    file that does not parse or cannot be read leaves the configuration
    empty (the warning it prints is not modelled). *)
Definition load_config (config_file : option file) (getenv : string -> option string)
  : result json :=
  let config :=
    match config_file with
    | Some (FileJson j) => j
    | _ => JDict []
    end in
  py_update config (_load_env_config getenv).

(** A configuration whose top-level key is empty while [api_keys] has it,
    and an environment that sets one key. *)
Definition shadowed_config : pydict :=
  [("tineye_api_key", JStr "");
   ("api_keys", JDict [("tineye_api_key", JStr "t-123");
                       ("dehashed_api_key", JStr "d-456")])].

Definition sample_getenv (var : string) : option string :=
  if String.eqb var "HIBP_API_KEY" then Some "from-env"
  else if String.eqb var "TINEYE_API_KEY" then Some ""
  else None.

(** A session in which the breach category failed. *)
Definition breach_failed_session : json :=
  JDict [("target", target_to_json alice);
         ("scan_time", JStr "2024-01-05T00:00:00");
         ("search_types", JList [JStr "breach"]);
         ("results",
          JDict [("breach", JDict [("data", JDict []); ("error", JStr "timeout");
                                   ("status", JStr "failed")])])].

(** ** The command line's target ([main.py]) *)

(** The input options of the command line; an option not given is [None]. *)
Record input_args : Type := mk_input_args {
  arg_email : option string;
  arg_username : option string;
  arg_full_name : option string;
  arg_phone : option string;
  arg_domain : option string;
  arg_input_file : option string
}.

(** [bool(a)] for an option value: given and not empty. *)
Definition arg_given (a : option string) : bool :=
  match a with
  | Some s => negb (String.eqb s "")
  | None => false
  end.

(** [validate_inputs]: whether [main] goes on ([True]) or exits;
    [profile_ops] is [any(profile_ops)]. *)
Definition validate_inputs (args : input_args) (profile_ops : bool) : bool :=
  existsb arg_given
    [arg_email args; arg_username args; arg_full_name args; arg_phone args;
     arg_domain args; arg_input_file args]
  || profile_ops.

(** The target [main] builds from the options: the ones that are not
    [None], in the order of the dictionary literal. *)
Definition build_target (args : input_args) : Target :=
  flat_map (fun kv => match snd kv with
                      | Some v => [(fst kv, v)]
                      | None => []
                      end)
    [("email", arg_email args); ("username", arg_username args);
     ("full_name", arg_full_name args); ("phone", arg_phone args);
     ("domain", arg_domain args)].

(** ** Facts about dictionaries *)

Lemma dict_get_set_eq k v d : dict_get k (dict_set k v d) = Some v.
Proof.
  induction d as [|[k' v'] d IH]; simpl.
  - now rewrite String.eqb_refl.
  - destruct (String.eqb k k') eqn:E; simpl; rewrite E; auto.
Qed.

Lemma dict_get_set_ne k k' v d :
  k <> k' -> dict_get k' (dict_set k v d) = dict_get k' d.
Proof.
  intros Hne. induction d as [|[k0 v0] d IH]; simpl.
  - destruct (String.eqb k' k) eqn:E; [|reflexivity].
    apply String.eqb_eq in E. congruence.
  - destruct (String.eqb k k0) eqn:E; simpl.
    + apply String.eqb_eq in E. subst k0.
      destruct (String.eqb k' k) eqn:E'; [|reflexivity].
      apply String.eqb_eq in E'. congruence.
    + now rewrite IH.
Qed.

Lemma dict_get_set k k' v d :
  dict_get k' (dict_set k v d) = if String.eqb k' k then Some v else dict_get k' d.
Proof.
  destruct (String.eqb k' k) eqn:E.
  - apply String.eqb_eq in E. subst. apply dict_get_set_eq.
  - apply String.eqb_neq in E. apply dict_get_set_ne. congruence.
Qed.

Lemma dict_get_not_in k d : k ∉ dict_keys d -> dict_get k d = None.
Proof.
  rewrite list_elem_of_In.
  induction d as [|[k' v'] d IH]; simpl; intros H; [reflexivity|].
  destruct (String.eqb k k') eqn:E.
  - apply String.eqb_eq in E. subst k'. exfalso. apply H. now left.
  - apply IH. intros Hin. apply H. now right.
Qed.

Lemma dict_get_in k d : dict_has k d = true <-> k ∈ dict_keys d.
Proof.
  rewrite list_elem_of_In. unfold dict_has. induction d as [|[k' v'] d IH]; simpl.
  - split; [discriminate | tauto].
  - destruct (String.eqb k k') eqn:E.
    + apply String.eqb_eq in E. subst. tauto.
    + apply String.eqb_neq in E. rewrite IH. split; [tauto|].
      intros [H|H]; [congruence | exact H].
Qed.

(** ** Facts about the merge engine *)

Lemma merge_dict_unfold e n :
  _merge_data_structures (JDict e) (JDict n) = JDict (merge_items n e).
Proof. reflexivity. Qed.


Lemma merge_items_get (n : pydict) : forall (e : pydict) k,
  dict_wf n ->
  dict_get k (merge_items n e) =
    match dict_get k n with
    | Some vb => Some (merge_slot (dict_get k e) vb)
    | None => dict_get k e
    end.
Proof.
  induction n as [|[key value] n IH]; intros e k Hwf; simpl; [reflexivity|].
  inversion Hwf as [|? ? Hnotin Hwf']; subst.
  rewrite IH by exact Hwf'.
  destruct (String.eqb k key) eqn:E.
  - apply String.eqb_eq in E. subst key.
    rewrite (dict_get_not_in k n Hnotin).
    destruct (dict_get k e) as [old|]; simpl; now rewrite dict_get_set_eq.
  - apply String.eqb_neq in E.
    assert (Hk : forall v, dict_get k (dict_set key v e) = dict_get k e)
      by (intros v; apply dict_get_set_ne; congruence).
    destruct (dict_get key e); now rewrite Hk.
Qed.

Lemma merge_items_has (n : pydict) : forall (e : pydict) k,
  dict_has k (merge_items n e) = dict_has k e || dict_has k n.
Proof.
  induction n as [|[key value] n IH]; intros e k; simpl.
  - now rewrite orb_false_r.
  - rewrite IH.
    assert (Hs : forall v, dict_has k (dict_set key v e)
                           = if String.eqb k key then true else dict_has k e).
    { intros v. unfold dict_has. rewrite dict_get_set.
      now destruct (String.eqb k key). }
    assert (Hc : dict_has k ((key, value) :: n)
                 = if String.eqb k key then true else dict_has k n).
    { unfold dict_has. simpl. now destruct (String.eqb k key). }
    rewrite Hc.
    destruct (dict_get key e); rewrite Hs; destruct (String.eqb k key);
      simpl; try reflexivity; now rewrite orb_true_r.
Qed.

(** C1. For mapping trees A and B, [merge(A, B)] is a mapping whose keys are
    those of A together with those of B: a key of A alone keeps its value, a
    key of B alone is inserted with its value, a key of both carries the
    merge of the two values. So a key bound to scalars on both sides carries
    B's value, and a key bound to sequences on both sides carries A's
    sequence followed by B's, of length [len(A[k]) + len(B[k])]. *)
Theorem merge_mapping_trees (a b : pydict) :
  dict_wf b ->
  exists m : pydict,
    _merge_data_structures (JDict a) (JDict b) = JDict m /\
    (forall k, dict_has k a = true -> dict_has k m = true) /\
    (forall k, dict_has k b = true -> dict_has k m = true) /\
    (forall k, dict_has k m = true -> dict_has k a = true \/ dict_has k b = true) /\
    (forall k, dict_get k b = None -> dict_get k m = dict_get k a) /\
    (forall k vb, dict_get k a = None -> dict_get k b = Some vb ->
                  dict_get k m = Some vb) /\
    (forall k va vb, dict_get k a = Some va -> dict_get k b = Some vb ->
                     dict_get k m = Some (_merge_data_structures va vb)) /\
    (forall k va vb,
        dict_get k a = Some va -> dict_get k b = Some vb ->
        is_scalar va = true -> is_scalar vb = true ->
        dict_get k m = Some vb) /\
    (forall k la lb,
        dict_get k a = Some (JList la) -> dict_get k b = Some (JList lb) ->
        dict_get k m = Some (JList (la ++ lb)) /\
        length (la ++ lb) = (length la + length lb)%nat).
Proof.
  intros Hwf. exists (merge_items b a).
  split; [apply merge_dict_unfold|].
  split; [|split; [|split; [|split; [|split; [|split; [|split]]]]]].
  - intros k H. rewrite merge_items_has, H. reflexivity.
  - intros k H. rewrite merge_items_has, H. apply orb_true_r.
  - intros k H. rewrite merge_items_has in H. now apply orb_true_iff in H.
  - intros k Hb. now rewrite merge_items_get, Hb.
  - intros k vb Ha Hb. now rewrite merge_items_get, Hb, Ha.
  - intros k va vb Ha Hb. now rewrite merge_items_get, Hb, Ha.
  - intros k va vb Ha Hb Hsa Hsb.
    rewrite merge_items_get, Hb, Ha by exact Hwf. simpl.
    destruct va, vb; try discriminate; reflexivity.
  - intros k la lb Ha Hb. split; [|apply length_app].
    now rewrite merge_items_get, Hb, Ha.
Qed.

Lemma merge_mapping_trees_witness :
  dict_wf sample_new /\
  exists m : pydict,
    _merge_data_structures (JDict sample_existing) (JDict sample_new) = JDict m /\
    dict_keys m = ["tags"; "name"; "only_a"; "only_b"] /\
    dict_get "name" m = Some (JStr "new") /\
    dict_get "tags" m = Some (JList [JStr "x"; JStr "y"; JStr "z"]).
Proof.
  assert (Hwf : dict_wf sample_new)
    by (apply (bool_decide_unpack _); vm_compute; exact I).
  split; [exact Hwf|].
  destruct (merge_mapping_trees sample_existing sample_new Hwf)
    as (m & Hm & _ & _ & _ & _ & _ & _ & Hscalar & Hseq).
  exists m. split; [exact Hm|]. split; [|split].
  - vm_compute in Hm. injection Hm as <-. reflexivity.
  - apply (Hscalar "name" (JStr "old") (JStr "new")); reflexivity.
  - apply (Hseq "tags" [JStr "x"] [JStr "y"; JStr "z"]); reflexivity.
Defined.

(** ** Merging a tree into itself *)

Lemma tree_wf_dict d : tree_wf (JDict d) -> dict_wf d.
Proof. simpl. tauto. Qed.

Lemma tree_wf_get d : forall k v,
  tree_wf (JDict d) -> dict_get k d = Some v -> tree_wf v.
Proof.
  intros k v [_ Hvals]. induction d as [|[k' v'] d IH]; simpl; [discriminate|].
  destruct Hvals as [Hv Hr].
  destruct (String.eqb k k'); [intros [= <-]; exact Hv | now apply IH].
Qed.

Lemma merge_self_get d k :
  dict_wf d ->
  dict_get k (merge_items d d) =
    match dict_get k d with
    | Some v => Some (_merge_data_structures v v)
    | None => None
    end.
Proof.
  intros Hwf. rewrite merge_items_get by exact Hwf.
  now destruct (dict_get k d).
Qed.

Lemma merge_self_path : forall p a,
  tree_wf a ->
  lookup_path p (_merge_data_structures a a) =
    match lookup_path p a with
    | Some v => Some (_merge_data_structures v v)
    | None => None
    end.
Proof.
  induction p as [|k p IH]; intros a Hwf; [reflexivity|].
  destruct a as [| | | | |l|d]; try reflexivity.
  rewrite merge_dict_unfold. simpl.
  rewrite merge_self_get by now apply tree_wf_dict.
  destruct (dict_get k d) as [v|] eqn:Hk; [|reflexivity].
  apply IH. now apply (tree_wf_get d k).
Qed.

Lemma merge_self_scalar s :
  is_scalar s = true -> _merge_data_structures s s = s.
Proof. destruct s; simpl; congruence. Qed.

Lemma merge_self_kind v :
  match v with
  | JList l => _merge_data_structures v v = JList (l ++ l)
  | JDict d => exists d', _merge_data_structures v v = JDict d'
  | _ => _merge_data_structures v v = v
  end.
Proof.
  destruct v; try reflexivity.
  eexists. apply merge_dict_unfold.
Qed.

Lemma app_self_length (l : list json) : length (l ++ l) = (2 * length l)%nat.
Proof. rewrite length_app. lia. Qed.

Lemma lookup_path_size_differs : forall p a b l,
  lookup_path p a = Some (JList l) ->
  lookup_path p b = Some (JList (l ++ l)) ->
  l <> [] -> a <> b.
Proof.
  intros p a b l Ha Hb Hne Heq. subst b. rewrite Ha in Hb.
  injection Hb as Hb. apply (f_equal (@length json)) in Hb.
  rewrite app_self_length in Hb.
  destruct l; [congruence | simpl in Hb; lia].
Qed.

(** C2. Merging a tree into itself is not idempotent on sequences: every
    sequence-typed leaf comes out with exactly twice its length (and the
    sequence leaves of the result are exactly those), so the result differs
    from the tree as soon as one such leaf is non-empty, while every
    scalar-typed leaf keeps its value. *)
Theorem merge_self_doubles_sequences (a : json) :
  tree_wf a ->
  let m := _merge_data_structures a a in
  (forall p l, lookup_path p a = Some (JList l) ->
     lookup_path p m = Some (JList (l ++ l)) /\
     length (l ++ l) = (2 * length l)%nat) /\
  (forall p l', lookup_path p m = Some (JList l') ->
     exists l, lookup_path p a = Some (JList l) /\
               length l' = (2 * length l)%nat) /\
  (forall p s, is_scalar s = true ->
     (lookup_path p a = Some s <-> lookup_path p m = Some s)) /\
  (forall p l, lookup_path p a = Some (JList l) -> l <> [] -> m <> a).
Proof.
  intros Hwf m.
  assert (Hpath := fun p => merge_self_path p a Hwf). fold m in Hpath.
  assert (Hseq : forall p l, lookup_path p a = Some (JList l) ->
                             lookup_path p m = Some (JList (l ++ l))).
  { intros p l Hl. now rewrite Hpath, Hl. }
  split; [|split; [|split]].
  - intros p l Hl. split; [now apply Hseq | apply app_self_length].
  - intros p l' Hl'. rewrite Hpath in Hl'.
    destruct (lookup_path p a) as [v|]; [|discriminate].
    pose proof (merge_self_kind v) as Hk.
    destruct v; try (rewrite Hk in Hl'; discriminate).
    + rewrite Hk in Hl'. injection Hl' as <-.
      eexists. split; [reflexivity | apply app_self_length].
    + destruct Hk as [d' Hd']. rewrite Hd' in Hl'. discriminate.
  - intros p s Hs. rewrite Hpath. split.
    + intros ->. now rewrite merge_self_scalar.
    + destruct (lookup_path p a) as [v|]; [|discriminate].
      pose proof (merge_self_kind v) as Hk.
      destruct v; try (rewrite Hk; tauto).
      * rewrite Hk. intros [= <-]. discriminate.
      * destruct Hk as [d' ->]. intros [= <-]. discriminate.
  - intros p l Hl Hne Heq.
    apply (lookup_path_size_differs p a m l Hl (Hseq p l Hl) Hne).
    now symmetry.
Qed.

Lemma merge_self_doubles_sequences_witness :
  tree_wf sample_tree /\
  lookup_path ["platforms"; "github"] (_merge_data_structures sample_tree sample_tree)
    = Some (JList [JStr "alice"; JStr "alice"]) /\
  lookup_path ["summary"; "found_profiles"] (_merge_data_structures sample_tree sample_tree)
    = Some (JInt 2) /\
  _merge_data_structures sample_tree sample_tree <> sample_tree.
Proof.
  assert (Hwf : tree_wf sample_tree).
  { simpl. repeat split; apply (bool_decide_unpack _); vm_compute; exact I. }
  destruct (merge_self_doubles_sequences sample_tree Hwf) as (Hseq & _ & Hsc & Hne).
  split; [exact Hwf|]. split; [|split].
  - apply (Hseq ["platforms"; "github"] [JStr "alice"]). reflexivity.
  - apply (Hsc ["summary"; "found_profiles"] (JInt 2)); reflexivity.
  - apply (Hne ["platforms"; "github"] [JStr "alice"]); [reflexivity | discriminate].
Defined.

(** ** The merge keeps trees well formed *)

Lemma tree_wf_unfold d : tree_wf (JDict d) <-> dict_wf d /\ values_wf d.
Proof.
  unfold values_wf. simpl. split; intros [Hk Hv]; (split; [exact Hk|]); clear Hk.
  - induction d as [|kv d IH]; [constructor|].
    destruct Hv as [Hkv Hd]. constructor; [exact Hkv | now apply IH].
  - induction Hv as [|kv d Hkv Hd IH]; [exact I | split; assumption].
Qed.

Lemma dict_keys_set k v d :
  dict_keys (dict_set k v d) = if dict_has k d then dict_keys d else dict_keys d ++ [k].
Proof.
  unfold dict_has. induction d as [|[k' v'] d IH]; simpl; [reflexivity|].
  destruct (String.eqb k k') eqn:E; simpl; [reflexivity|].
  rewrite IH. now destruct (dict_get k d).
Qed.

Lemma dict_set_wf k v d : dict_wf d -> dict_wf (dict_set k v d).
Proof.
  unfold dict_wf. intros Hwf. rewrite dict_keys_set.
  destruct (dict_has k d) eqn:Hk; [exact Hwf|].
  apply NoDup_app. split; [exact Hwf|]. split; [|apply NoDup_singleton].
  intros x Hx Hx'. apply list_elem_of_singleton in Hx'. subst x.
  apply dict_get_in in Hx. congruence.
Qed.

Lemma values_wf_set k v d : tree_wf v -> values_wf d -> values_wf (dict_set k v d).
Proof.
  unfold values_wf. intros Hv Hd.
  induction Hd as [|[k' v'] d Hkv Hd IH]; simpl.
  - constructor; [exact Hv | constructor].
  - destruct (String.eqb k k'); constructor; assumption.
Qed.

Lemma values_wf_get k v d : values_wf d -> dict_get k d = Some v -> tree_wf v.
Proof.
  unfold values_wf. intros Hd.
  induction Hd as [|[k' v'] d Hkv Hd IH]; simpl; [discriminate|].
  destruct (String.eqb k k'); [intros [= <-]; exact Hkv | exact IH].
Qed.

Lemma merge_items_wf n :
  Forall (fun kv => forall a, tree_wf a -> tree_wf (snd kv) ->
                    tree_wf (_merge_data_structures a (snd kv))) n ->
  values_wf n ->
  forall e, dict_wf e -> values_wf e ->
            dict_wf (merge_items n e) /\ values_wf (merge_items n e).
Proof.
  intros Hrec. induction Hrec as [|[key value] n Hkv Hn IH];
    intros Hvn e Hke Hve; simpl; [now split|].
  inversion Hvn as [|? ? Hvalue Hvn']; subst. simpl in Hvalue, Hkv.
  destruct (dict_get key e) as [old|] eqn:Hold; apply IH; try assumption.
  - now apply dict_set_wf.
  - apply values_wf_set; [|exact Hve].
    apply Hkv; [now apply (values_wf_get key old e) | exact Hvalue].
  - now apply dict_set_wf.
  - now apply values_wf_set.
Qed.

(** Merging well-formed trees gives a well-formed tree: the keys of every
    mapping of the result are pairwise distinct. *)
Lemma merge_preserves_wf : forall b a,
  tree_wf a -> tree_wf b -> tree_wf (_merge_data_structures a b).
Proof.
  induction b as [| | | | | l _ | n IH] using json_ind; intros a Ha Hb;
    try (destruct a; exact Hb).
  destruct a as [| | | | | |e]; try exact Hb.
  rewrite merge_dict_unfold. apply tree_wf_unfold.
  apply tree_wf_unfold in Ha, Hb. destruct Ha as [Hke Hve], Hb as [_ Hvn].
  now apply merge_items_wf.
Qed.

(** ** Scan orchestrator *)

Section ScannerFacts.
Context {R : Runtime}.
Variable scanners : registry.
Variable target : Target.
Variable nsfw : bool.

Lemma scan_loop_snoc l x s :
  scan_loop scanners target nsfw (l ++ [x]) s
  = scan_step scanners target nsfw (scan_loop scanners target nsfw l s) x.
Proof. unfold scan_loop. now rewrite fold_left_app. Qed.

(** What one iteration does to the slot of a category [k]. *)
Lemma scan_step_get s x k :
  dict_get k (st_results (scan_step scanners target nsfw s x)) =
    if String.eqb k x then
      match scanners_get x scanners with
      | Some c =>
          let '(t0, w) := time_time (st_world s) in
          match c target nsfw w with
          | (Returned d, w') =>
              Some (completed_entry d (PrimFloat.sub (fst (time_time w')) t0))
          | (Raised e, _) => Some (failed_entry e)
          end
      | None => dict_get k (st_results s)
      end
    else dict_get k (st_results s).
Proof.
  unfold scan_step.
  destruct (scanners_get x scanners) as [c|] eqn:Hc.
  - destruct (time_time (st_world s)) as [t0 w].
    destruct (c target nsfw w) as [[d|e] w'] eqn:Hrun.
    + destruct (time_time w') as [t1 w''] eqn:Ht. simpl.
      now rewrite dict_get_set.
    + simpl. now rewrite dict_get_set.
  - simpl. now destruct (String.eqb k x).
Qed.

Lemma scan_step_has s x k :
  dict_has k (st_results (scan_step scanners target nsfw s x)) =
    dict_has k (st_results s)
    || (String.eqb k x && match scanners_get x scanners with
                          | Some _ => true
                          | None => false
                          end).
Proof.
  unfold dict_has. rewrite scan_step_get.
  destruct (String.eqb k x); [|now rewrite orb_false_r].
  destruct (scanners_get x scanners) as [c|]; [|now rewrite orb_false_r].
  destruct (time_time (st_world s)) as [t0 w].
  destruct (c target nsfw w) as [[d|e] w']; simpl; now rewrite orb_true_r.
Qed.

(** The slot of a requested, registered category holds the outcome of a run
    of its own collector, whatever the other collectors did. *)
Lemma scan_loop_slot k c :
  scanners_get k scanners = Some c ->
  forall l s, In k l ->
  exists w, 
    match c target nsfw w with
    | (Returned d, _) =>
        exists t, dict_get k (st_results (scan_loop scanners target nsfw l s))
                  = Some (completed_entry d t)
    | (Raised e, _) =>
        dict_get k (st_results (scan_loop scanners target nsfw l s))
        = Some (failed_entry e)
    end.
Proof.
  intros Hc l. induction l as [|x l IH] using rev_ind; intros s Hin; [destruct Hin|].
  rewrite scan_loop_snoc, scan_step_get.
  destruct (String.eqb k x) eqn:E.
  - apply String.eqb_eq in E. subst x. rewrite Hc.
    destruct (time_time (st_world (scan_loop scanners target nsfw l s))) as [t0 w].
    exists w. destruct (c target nsfw w) as [[d|e] w']; eauto.
  - apply String.eqb_neq in E. apply in_app_or in Hin.
    destruct Hin as [Hin|[Hx|[]]]; [now apply IH | congruence].
Qed.

Lemma scan_loop_has l : forall s k,
  dict_has k (st_results (scan_loop scanners target nsfw l s)) =
    dict_has k (st_results s)
    || (existsb (String.eqb k) l && match scanners_get k scanners with
                                    | Some _ => true
                                    | None => false
                                    end).
Proof.
  induction l as [|x l IH]; intros s k; simpl.
  - now rewrite orb_false_r.
  - unfold scan_loop in *. simpl. rewrite IH, scan_step_has.
    destruct (String.eqb k x) eqn:E; simpl.
    + apply String.eqb_eq in E. subst x.
      destruct (dict_has k (st_results s)), (existsb (String.eqb k) l),
        (scanners_get k scanners); reflexivity.
    + now rewrite orb_false_r.
Qed.

Lemma existsb_eqb_In k l : existsb (String.eqb k) l = true <-> In k l.
Proof.
  rewrite existsb_exists. split.
  - intros [x [Hin E]]. apply String.eqb_eq in E. now subst.
  - intros Hin. exists k. split; [exact Hin | apply String.eqb_refl].
Qed.

(** The events logged about a category. *)
Lemma scan_step_log s x e :
  In e (st_log (scan_step scanners target nsfw s x)) ->
  In e (st_log s) \/
  (event_type e = Some x /\
   match scanners_get x scanners with
   | Some _ => e <> UnknownSearchType x
   | None => e = UnknownSearchType x
   end).
Proof.
  unfold scan_step.
  destruct (scanners_get x scanners) as [c|].
  - destruct (time_time (st_world s)) as [t0 w].
    destruct (c target nsfw w) as [[d|m] w'].
    + destruct (time_time w') as [t1 w'']. simpl.
      rewrite !in_app_iff. simpl.
      intros [[H|[<-|[]]]|[<-|[]]]; [now left | right.. ]; now split.
    + simpl. rewrite !in_app_iff. simpl.
      intros [[H|[<-|[]]]|[<-|[]]]; [now left | right.. ]; now split.
  - simpl. rewrite in_app_iff. simpl.
    intros [H|[<-|[]]]; [now left | right]; now split.
Qed.

Lemma scan_loop_log l : forall s e,
  In e (st_log (scan_loop scanners target nsfw l s)) ->
  In e (st_log s) \/
  exists x, In x l /\ event_type e = Some x /\
    match scanners_get x scanners with
    | Some _ => e <> UnknownSearchType x
    | None => e = UnknownSearchType x
    end.
Proof.
  induction l as [|x l IH] using rev_ind; intros s e; [now left|].
  rewrite scan_loop_snoc. intros H.
  apply scan_step_log in H. destruct H as [H|[Ht Hk]].
  - apply IH in H. destruct H as [H|(y & Hin & Hy)]; [now left|].
    right. exists y. split; [apply in_or_app; now left | exact Hy].
  - right. exists x. split; [apply in_or_app; right; now left | now split].
Qed.

Lemma scan_loop_warns l : forall s k,
  In k l -> scanners_get k scanners = None ->
  In (UnknownSearchType k) (st_log (scan_loop scanners target nsfw l s)).
Proof.
  induction l as [|x l IH] using rev_ind; intros s k Hin Hk; [destruct Hin|].
  rewrite scan_loop_snoc.
  assert (Hmono : forall s e, In e (st_log s) ->
                              In e (st_log (scan_step scanners target nsfw s x))).
  { intros s0 e He. unfold scan_step.
    destruct (scanners_get x scanners) as [c|].
    - destruct (time_time (st_world s0)) as [t0 w].
      destruct (c target nsfw w) as [[d|m] w'].
      + destruct (time_time w') as [t1 w'']. simpl.
        rewrite !in_app_iff. tauto.
      + simpl. rewrite !in_app_iff. tauto.
    - simpl. rewrite in_app_iff. tauto. }
  apply in_app_or in Hin. destruct Hin as [Hin|[->|[]]].
  - apply Hmono. now apply IH.
  - unfold scan_step. rewrite Hk. simpl. apply in_or_app. right. now left.
Qed.

(** The session and log of [scan_target], in terms of the loop. *)
Lemma scan_target_unfold search_types w :
  exists now w0,
    datetime_now w = (now, w0) /\
    let s := scan_loop scanners target nsfw search_types
               (mk_scan_state [] [StartingScan target] w0) in
    scan_target scanners target search_types nsfw w =
      (JDict [("target", target_to_json target);
              ("scan_time", JStr (isoformat now));
              ("search_types", JList (map JStr search_types));
              ("results", JDict (st_results s))],
       st_log s, st_world s).
Proof.
  unfold scan_target. destruct (datetime_now w) as [now w0]. eauto.
Qed.

End ScannerFacts.

(** C3. When X and Y are requested and registered, X's collector raises and
    Y's collector answers, [scan_target] returns a session (it is a total
    function: nothing escapes) in which X's slot is the failed entry carrying
    the error message and Y's slot is a completed entry carrying Y's data. *)
Theorem scan_target_isolates_failures {R : Runtime}
    (scanners : registry) (target : Target) (search_types : list string)
    (nsfw : bool) (w : World)
    (X Y : string) (cX cY : collector) (message : string) (data : json) :
  In X search_types -> In Y search_types ->
  scanners_get X scanners = Some cX ->
  scanners_get Y scanners = Some cY ->
  (forall w0, fst (cX target nsfw w0) = Raised message) ->
  (forall w0, fst (cY target nsfw w0) = Returned data) ->
  exists session log w' results,
    scan_target scanners target search_types nsfw w = (session, log, w') /\
    lookup_path ["results"] session = Some (JDict results) /\
    dict_get X results = Some (failed_entry message) /\
    lookup_path ["results"; X; "status"] session = Some (JStr "failed") /\
    lookup_path ["results"; X; "error"] session = Some (JStr message) /\
    (exists t, dict_get Y results = Some (completed_entry data t)) /\
    lookup_path ["results"; Y; "status"] session = Some (JStr "completed") /\
    lookup_path ["results"; Y; "data"] session = Some data.
Proof.
  intros HinX HinY HcX HcY HX HY.
  destruct (scan_target_unfold scanners target nsfw search_types w)
    as (now & w0 & _ & Heq).
  set (s0 := mk_scan_state [] [StartingScan target] w0) in *.
  cbv zeta in Heq.
  set (s := scan_loop scanners target nsfw search_types s0) in *.
  assert (HrX : dict_get X (st_results s) = Some (failed_entry message)).
  { destruct (scan_loop_slot scanners target nsfw X cX HcX search_types s0 HinX)
      as [wx Hx].
    specialize (HX wx). destruct (cX target nsfw wx) as [[d|e] w1]; simpl in HX.
    - discriminate.
    - injection HX as ->. exact Hx. }
  assert (HrY : exists t, dict_get Y (st_results s) = Some (completed_entry data t)).
  { destruct (scan_loop_slot scanners target nsfw Y cY HcY search_types s0 HinY)
      as [wy Hy].
    specialize (HY wy). destruct (cY target nsfw wy) as [[d|e] w1]; simpl in HY.
    - injection HY as ->. exact Hy.
    - discriminate. }
  exists (JDict [("target", target_to_json target);
                 ("scan_time", JStr (isoformat now));
                 ("search_types", JList (map JStr search_types));
                 ("results", JDict (st_results s))]),
    (st_log s), (st_world s), (st_results s).
  destruct HrY as [t HrY].
  split; [exact Heq|]. split; [reflexivity|]. split; [exact HrX|].
  cbn [lookup_path dict_get String.eqb Ascii.eqb Bool.eqb].
  rewrite HrX, HrY. repeat split; try reflexivity. now exists t.
Qed.

Lemma scan_target_isolates_failures_witness :
  exists session log w' results,
    @scan_target sample_runtime sample_scanners alice
      ["social"; "breach"] false 0%nat = (session, log, w') /\
    lookup_path ["results"] session = Some (JDict results) /\
    dict_get "social" results = Some (failed_entry "connection refused") /\
    lookup_path ["results"; "social"; "status"] session = Some (JStr "failed") /\
    lookup_path ["results"; "social"; "error"] session
      = Some (JStr "connection refused") /\
    (exists t, dict_get "breach" results
               = Some (completed_entry
                         (JDict [("summary", JDict [("total_breaches", JInt 1)])]) t)) /\
    lookup_path ["results"; "breach"; "status"] session = Some (JStr "completed") /\
    lookup_path ["results"; "breach"; "data"] session
      = Some (JDict [("summary", JDict [("total_breaches", JInt 1)])]).
Proof.
  apply (@scan_target_isolates_failures sample_runtime sample_scanners alice
           ["social"; "breach"] false 0%nat "social" "breach"
           failing_collector answering_collector).
  - simpl. auto.
  - simpl. auto.
  - reflexivity.
  - reflexivity.
  - intros w0. reflexivity.
  - intros w0. reflexivity.
Defined.

(** C9. A requested category without a registered collector is left out of
    the session's results: the keys of [results] are exactly the requested
    categories that are registered, and for an unregistered one the only
    thing recorded is the warning in the log. *)
Theorem scan_target_omits_unknown {R : Runtime}
    (scanners : registry) (target : Target) (search_types : list string)
    (nsfw : bool) (w : World) :
  exists session log w' results,
    scan_target scanners target search_types nsfw w = (session, log, w') /\
    lookup_path ["results"] session = Some (JDict results) /\
    (forall k, dict_has k results = true <->
               In k search_types /\ scanners_get k scanners <> None) /\
    (forall k, In k search_types -> scanners_get k scanners = None ->
       dict_get k results = None /\
       In (UnknownSearchType k) log /\
       level_of (UnknownSearchType k) = WARNING /\
       (forall e, In e log -> event_type e = Some k -> e = UnknownSearchType k)).
Proof.
  destruct (scan_target_unfold scanners target nsfw search_types w)
    as (now & w0 & _ & Heq).
  set (s0 := mk_scan_state [] [StartingScan target] w0) in *.
  cbv zeta in Heq.
  set (s := scan_loop scanners target nsfw search_types s0) in *.
  assert (Hkeys : forall k, dict_has k (st_results s) = true <->
                            In k search_types /\ scanners_get k scanners <> None).
  { intros k. unfold s. rewrite scan_loop_has. simpl.
    rewrite andb_true_iff, existsb_eqb_In.
    destruct (scanners_get k scanners); split; intros [H1 H2];
      try (split; congruence); try discriminate; congruence. }
  do 4 eexists. split; [exact Heq|]. split; [reflexivity|].
  split; [exact Hkeys|].
  intros k Hin Hk. repeat split.
  - destruct (dict_get k (st_results s)) eqn:Hg; [|reflexivity].
    assert (Hh : dict_has k (st_results s) = true) by (unfold dict_has; now rewrite Hg).
    apply Hkeys in Hh. destruct Hh as [_ Hh]. congruence.
  - now apply scan_loop_warns.
  - intros e He Hty. apply scan_loop_log in He.
    destruct He as [He|(x & Hx & Hty' & Hcase)].
    + simpl in He. destruct He as [<-|[]]. discriminate.
    + rewrite Hty' in Hty. injection Hty as ->.
      rewrite Hk in Hcase. exact Hcase.
Qed.

Lemma scan_target_omits_unknown_witness :
  exists session log w' results,
    @scan_target sample_runtime sample_scanners alice
      ["social"; "darkweb"; "breach"] false 0%nat = (session, log, w') /\
    lookup_path ["results"] session = Some (JDict results) /\
    dict_keys results = ["social"; "breach"] /\
    dict_get "darkweb" results = None /\
    In (UnknownSearchType "darkweb") log.
Proof.
  destruct (@scan_target_omits_unknown sample_runtime sample_scanners alice
              ["social"; "darkweb"; "breach"] false 0%nat)
    as (session & log & w' & results & Heq & Hres & Hkeys & Hunknown).
  exists session, log, w', results.
  assert (Hin : In "darkweb" ["social"; "darkweb"; "breach"]) by (simpl; auto).
  destruct (Hunknown "darkweb" Hin eq_refl) as (Hnone & Hwarn & _).
  repeat split; try assumption.
  vm_compute in Heq. injection Heq as <- _ _.
  vm_compute in Hres. injection Hres as <-. reflexivity.
Defined.

(** ** Profile store: loading *)



(** ** Profile identifier *)

Section NameFacts.
Context {R : Runtime}.

(** The code follows the precedence list; past it, the clock is read. *)
Lemma generate_profile_name_cases (target : Target) (w : World) :
  _generate_profile_name target w =
    match identity_name target with
    | Some name => (name, w)
    | None => (("profile_" ++ strftime_stamp (fst (datetime_now w)))%string,
               snd (datetime_now w))
    end.
Proof.
  unfold _generate_profile_name, identity_name.
  destruct (target_field "username" target); [reflexivity|].
  destruct (target_field "email" target); [reflexivity|].
  destruct (target_field "domain" target); [reflexivity|].
  destruct (datetime_now w) as [now w'] eqn:Hnow. simpl.
  destruct (target_field "full_name" target) as [full_name|]; [|reflexivity].
  destruct (split_ws full_name) as [|first [|second rest]]; reflexivity.
Qed.

End NameFacts.

(** C7, as stated, fails: a target whose only identity field is the phone
    number passes [validate_target], and its name changes with the clock. *)
Lemma derived_name_depends_on_clock :
  ~ (forall (R : Runtime) (target : Target) (w1 w2 : World),
       validate_target target = true ->
       fst (_generate_profile_name target w1) = fst (_generate_profile_name target w2)).
Proof.
  intros H.
  specialize (H sample_runtime [("phone", "+1-555-123-4567")] 0%nat 1%nat eq_refl).
  vm_compute in H. discriminate H.
Qed.

(** C7, amended. [_generate_profile_name] is total: on every target it
    returns a string, chosen by first-match precedence among username,
    e-mail local part, domain and the first two parts of the full name. When
    one of these four rules applies the name depends on the target alone and
    the clock is not read; otherwise, and in particular for a target with no
    identity field, the name is the time stamp of the clock reading. *)
Theorem generate_profile_name_total {R : Runtime} (target : Target) (w : World) :
  (exists name w', _generate_profile_name target w = (name, w')) /\
  (forall name, identity_name target = Some name ->
     forall w0, _generate_profile_name target w0 = (name, w0)) /\
  (identity_name target = None ->
     _generate_profile_name target w
     = (("profile_" ++ strftime_stamp (fst (datetime_now w)))%string,
        snd (datetime_now w))) /\
  (validate_target target = false -> identity_name target = None).
Proof.
  repeat split.
  - destruct (_generate_profile_name target w) as [name w']. eauto.
  - intros name Hname w0. now rewrite generate_profile_name_cases, Hname.
  - intros Hnone. now rewrite generate_profile_name_cases, Hnone.
  - unfold validate_target, identity_name. intros Hv. simpl in Hv.
    destruct (target_field "email" target); [simpl in Hv; discriminate Hv|].
    destruct (target_field "username" target); [simpl in Hv; discriminate Hv|].
    destruct (target_field "full_name" target); [simpl in Hv; discriminate Hv|].
    destruct (target_field "phone" target); [simpl in Hv; discriminate Hv|].
    destruct (target_field "domain" target); [simpl in Hv; discriminate Hv|].
    reflexivity.
Qed.

Lemma generate_profile_name_total_witness :
  (forall w0 : @World sample_runtime,
     @_generate_profile_name sample_runtime
       [("email", "bob@example.com"); ("username", "")] w0 = ("profile_bob", w0)) /\
  @_generate_profile_name sample_runtime [] 5%nat = ("profile_20240102_030405", 6%nat).
Proof.
  split.
  - apply (proj1 (proj2 (@generate_profile_name_total sample_runtime
                           [("email", "bob@example.com"); ("username", "")] 0%nat))).
    reflexivity.
  - apply (proj1 (proj2 (proj2 (@generate_profile_name_total sample_runtime [] 5%nat)))).
    reflexivity.
Defined.

(** ** Profile store: saving *)

Lemma bind_ok {A B : Type} (m : result A) (f : A -> result B) (b : B) :
  bind m f = Ok b -> exists a, m = Ok a /\ f a = Ok b.
Proof. destruct m as [a|e]; simpl; [eauto | discriminate]. Qed.

(** Inversion of one monadic step that succeeded. *)
Tactic Notation "inv_bind" hyp(H) "as" ident(x) ident(Hx) :=
  apply bind_ok in H; destruct H as (x & Hx & H).


(** What a successful [_merge_profiles] did, step by step. *)
Lemma merge_profiles_inv existing target name created updated session summary m :
  _merge_profiles existing
    (profile_record target name created updated session summary) = Ok m ->
  exists p hist cd sm,
    existing = JDict p /\
    dict_get "scan_history" p = Some (JList hist) /\
    _merge_scan_results
      (match dict_get "current_data" p with Some v => v | None => JDict [] end)
      session = Ok cd /\
    _generate_summary cd = Ok sm /\
    m = JDict
          (dict_set "summary" sm
             (dict_set "current_data" cd
                (dict_set "scan_history"
                   (JList (hist ++ [history_entry updated session]))
                   (dict_set "last_updated" (JStr (isoformat updated)) p)))).
Proof.
  unfold _merge_profiles, profile_record. intros H.
  destruct existing as [| | | | |l|p]; try discriminate H.
  cbn [py_copy bind py_getitem dict_get String.eqb Ascii.eqb Bool.eqb py_setitem] in H.
  rewrite dict_get_set_ne in H by discriminate.
  destruct (dict_get "scan_history" p) as [h|] eqn:Hh; [|discriminate H].
  destruct h as [| | | | |hist|]; try discriminate H.
  cbn [py_append bind py_get] in H.
  rewrite dict_get_set_ne, dict_get_set_ne in H by discriminate.
  inv_bind H as cd Hcd.
  rewrite dict_get_set_eq in H. cbn [bind] in H.
  inv_bind H as sm Hsm.
  injection H as <-.
  exists p, hist, cd, sm. repeat split; assumption.
Qed.

Section SaveFacts.
Context {R : Runtime}.

Lemma save_profile_inv target session pn st w name st' w' :
  save_profile target session pn st w = (Ok (name, st'), w') ->
  exists w1 created w2 updated summary stored,
    resolve_name target pn w = (name, w1) /\
    datetime_now w1 = (created, w2) /\
    datetime_now w2 = (updated, w') /\
    _generate_summary session = Ok summary /\
    match load_profile st name with
    | Some existing_profile =>
        if truthy existing_profile
        then _merge_profiles existing_profile
               (profile_record target name created updated session summary)
        else Ok (profile_record target name created updated session summary)
    | None => Ok (profile_record target name created updated session summary)
    end = Ok stored /\
    write_profile st name stored = Ok st'.
Proof.
  unfold save_profile.
  destruct (resolve_name target pn w) as [nm w1].
  destruct (datetime_now w1) as [created w2] eqn:Hc.
  destruct (datetime_now w2) as [updated w3] eqn:Hu.
  intros H. injection H as H <-.
  inv_bind H as summary Hsum.
  cbv zeta in H.
  inv_bind H as stored Hstored.
  inv_bind H as st1 Hw.
  injection H as <- <-.
  exists w1, created, w2, updated, summary, stored.
  repeat split; first [assumption | reflexivity].
Qed.

Lemma write_profile_inv st name stored st' :
  write_profile st name stored = Ok st' ->
  load_profile st' name = Some stored /\
  forall other, other <> name -> files st' !! other = files st !! other.
Proof.
  unfold write_profile, load_profile. intros H.
  assert (st' = mk_store (<[name := FileJson stored]> (files st))) as ->.
  { destruct (files st !! name) as [[| |]|]; congruence. }
  simpl. rewrite lookup_insert_eq. split; [reflexivity|].
  intros other Hne. now rewrite lookup_insert_ne.
Qed.

(** A save onto a truthy stored profile, seen from the stored dictionaries. *)
Lemma save_profile_over_existing target session pn st w name st' w' existing :
  save_profile target session pn st w = (Ok (name, st'), w') ->
  load_profile st name = Some existing ->
  truthy existing = true ->
  exists p hist cd sm updated,
    existing = JDict p /\
    dict_get "scan_history" p = Some (JList hist) /\
    _merge_scan_results
      (match dict_get "current_data" p with Some v => v | None => JDict [] end)
      session = Ok cd /\
    _generate_summary cd = Ok sm /\
    load_profile st' name =
      Some (JDict
              (dict_set "summary" sm
                 (dict_set "current_data" cd
                    (dict_set "scan_history"
                       (JList (hist ++ [history_entry updated session]))
                       (dict_set "last_updated" (JStr (isoformat updated)) p))))).
Proof.
  intros Hsave Hload Htruthy.
  apply save_profile_inv in Hsave.
  destruct Hsave as (w1 & created & w2 & updated & summary & stored
                     & _ & _ & _ & _ & Hstored & Hwrite).
  rewrite Hload, Htruthy in Hstored.
  apply merge_profiles_inv in Hstored.
  destruct Hstored as (p & hist & cd & sm & -> & Hhist & Hcd & Hsm & ->).
  apply write_profile_inv in Hwrite. destruct Hwrite as [Hl _].
  exists p, hist, cd, sm, updated. repeat split; assumption.
Qed.



End SaveFacts.

(** C10. A save over a stored profile leaves [created_at], [profile_name] and
    [target] as they were stored: of the stored dictionary only
    [last_updated], [scan_history], [current_data] and [summary] are
    rebound. *)
Theorem save_preserves_identity_fields {R : Runtime}
    (target : Target) (session : json) (pn : option string)
    (st st' : Store) (w w' : World) (name : string) (existing : json) :
  save_profile target session pn st w = (Ok (name, st'), w') ->
  load_profile st name = Some existing ->
  truthy existing = true ->
  exists e p,
    existing = JDict e /\
    load_profile st' name = Some (JDict p) /\
    dict_get "created_at" p = dict_get "created_at" e /\
    dict_get "profile_name" p = dict_get "profile_name" e /\
    dict_get "target" p = dict_get "target" e /\
    (forall k, ~ In k ["last_updated"; "scan_history"; "current_data"; "summary"] ->
               dict_get k p = dict_get k e).
Proof.
  intros Hsave Hload Htruthy.
  destruct (save_profile_over_existing _ _ _ _ _ _ _ _ _ Hsave Hload Htruthy)
    as (e & hist & cd & sm & updated & -> & _ & _ & _ & Hstored).
  eexists e, _. split; [reflexivity|]. split; [exact Hstored|].
  assert (Hframe : forall k,
             ~ In k ["last_updated"; "scan_history"; "current_data"; "summary"] ->
             dict_get k
               (dict_set "summary" sm
                  (dict_set "current_data" cd
                     (dict_set "scan_history"
                        (JList (hist ++ [history_entry updated session]))
                        (dict_set "last_updated" (JStr (isoformat updated)) e))))
             = dict_get k e).
  { intros k Hk. simpl in Hk.
    rewrite !dict_get_set_ne; [reflexivity | intros <-; tauto ..]. }
  repeat split; try exact Hframe; apply Hframe; simpl; intuition discriminate.
Qed.

Lemma save_preserves_identity_fields_witness :
  exists e p,
    load_profile store_after_first "profile_alice" = Some (JDict e) /\
    load_profile store_after_second "profile_alice" = Some (JDict p) /\
    dict_get "created_at" p = dict_get "created_at" e /\
    dict_get "profile_name" p = dict_get "profile_name" e /\
    dict_get "target" p = dict_get "target" e.
Proof.
  destruct (@save_preserves_identity_fields sample_runtime alice breach_session None
              store_after_first store_after_second 2%nat 4%nat "profile_alice"
              (match load_profile store_after_first "profile_alice" with
               | Some j => j
               | None => JNull
               end))
    as (e & p & He & Hp & Hc & Hn & Ht & _).
  - vm_compute. reflexivity.
  - vm_compute. reflexivity.
  - vm_compute. reflexivity.
  - exists e, p. rewrite <- He.
    split; [reflexivity|]. repeat split; assumption.
Defined.

(** ** Sequences of saves *)

Section SaveSequences.
Context {R : Runtime}.
Variable target : Target.
Variable pn : option string.
Variable name : string.
Hypothesis Hname : forall w0, fst (resolve_name target pn w0) = name.


End SaveSequences.




(** C5: what the code does on the scenario. The first save leaves
    [scan_history] empty and the second leaves one entry (the claim and
    [test_merge_profiles] expect one and two); the summary after the second
    save counts both categories. *)
Theorem two_saves_history_length :
  exists p1 p2 entry,
    load_profile store_after_first "profile_alice" = Some p1 /\
    load_profile store_after_second "profile_alice" = Some p2 /\
    lookup_path ["scan_history"] p1 = Some (JList []) /\
    lookup_path ["scan_history"] p2 = Some (JList [entry]) /\
    entry_session entry = Some breach_session /\
    lookup_path ["summary"; "social_media_profiles"] p2 = Some (JInt 2) /\
    lookup_path ["summary"; "breaches_found"] p2 = Some (JInt 1).
Proof.
  eexists _, _, _.
  split; [vm_compute; reflexivity|].
  split; [vm_compute; reflexivity|].
  repeat split; vm_compute; reflexivity.
Qed.

(** ** The summary of a first save *)

(** C6, as stated, fails: with the data [{"found_profiles": 2}] the count is
    not where [_generate_summary] reads it, so [social_media_profiles] is 0,
    and [total_scans] is 1. *)
Lemma flat_count_is_not_summarised :
  exists st' w' p,
    @save_profile sample_runtime alice social_session_flat None empty_store 0%nat
      = (Ok ("profile_alice", st'), w') /\
    load_profile st' "profile_alice" = Some p /\
    lookup_path ["summary"; "social_media_profiles"] p = Some (JInt 0) /\
    lookup_path ["summary"; "social_media_profiles"] p <> Some (JInt 2) /\
    lookup_path ["summary"; "total_scans"] p = Some (JInt 1).
Proof.
  eexists _, _, _.
  split; [vm_compute; reflexivity|].
  split; [vm_compute; reflexivity|].
  split; [vm_compute; reflexivity|].
  split; [vm_compute; discriminate|].
  vm_compute; reflexivity.
Qed.

(** C6, amended. For the target [{"username": "alice"}] and a session whose
    results hold the one category [social], completed, a first save resolves
    the name ["profile_alice"] and stores a summary with [total_scans] 1 and
    every counter but [social_media_profiles] 0; [social_media_profiles] is
    2 when the data is [{"summary": {"found_profiles": 2}}] and 0 when it is
    [{"found_profiles": 2}]. *)
Theorem first_save_social_summary {R : Runtime}
    (fields entry : pydict) (data : json) (count : Z) (st : Store) (w : World) :
  files st !! "profile_alice" = None ->
  dict_get "results" fields = Some (JDict [("social", JDict entry)]) ->
  status_completed entry = true ->
  dict_get "data" entry = Some data ->
  (data = JDict [("summary", JDict [("found_profiles", JInt 2)])] /\ count = 2%Z) \/
  (data = JDict [("found_profiles", JInt 2)] /\ count = 0%Z) ->
  exists st' w' p,
    save_profile alice (JDict fields) None st w = (Ok ("profile_alice", st'), w') /\
    load_profile st' "profile_alice" = Some p /\
    lookup_path ["summary"] p
      = Some (summary_to_json
                (mk_summary 1 (JInt count) (JInt 0) (JInt 0) (JInt 0) (JInt 0) (JInt 0))).
Proof.
  intros Hfile Hresults Hstatus Hdata Hcase.
  assert (Hsum : _generate_summary (JDict fields)
                 = Ok (summary_to_json
                         (mk_summary 1 (JInt count) (JInt 0) (JInt 0) (JInt 0)
                            (JInt 0) (JInt 0)))).
  { unfold _generate_summary, _generate_summary_record.
    cbn [py_get bind]. rewrite Hresults.
    cbn [py_items bind foldM summary_step]. rewrite Hstatus, Hdata.
    destruct Hcase as [[-> ->]|[-> ->]]; reflexivity. }
  unfold save_profile.
  change (resolve_name alice None w) with ("profile_alice", w).
  cbv beta iota.
  destruct (datetime_now w) as [created w1].
  destruct (datetime_now w1) as [updated w2].
  rewrite Hsum. cbn [bind]. unfold load_profile, write_profile.
  rewrite Hfile. cbn [bind].
  eexists _, w2, _. split; [reflexivity|].
  simpl. rewrite lookup_insert_eq. split; reflexivity.
Qed.

Lemma first_save_social_summary_witness :
  exists st' w' p,
    @save_profile sample_runtime alice social_session None empty_store 0%nat
      = (Ok ("profile_alice", st'), w') /\
    load_profile st' "profile_alice" = Some p /\
    lookup_path ["summary"] p
      = Some (summary_to_json
                (mk_summary 1 (JInt 2) (JInt 0) (JInt 0) (JInt 0) (JInt 0) (JInt 0))).
Proof.
  apply (@first_save_social_summary sample_runtime _
           [("data", JDict [("summary", JDict [("found_profiles", JInt 2)])]);
            ("scan_time", JFloat PrimFloat.one);
            ("status", JStr "completed")]
           (JDict [("summary", JDict [("found_profiles", JInt 2)])]) 2%Z
           empty_store 0%nat).
  - reflexivity.
  - reflexivity.
  - reflexivity.
  - reflexivity.
  - left. split; reflexivity.
Defined.

(** * Further properties of the aggregation core *)

(** ** Merge engine: identities, key order, well-formedness *)

Lemma dict_set_fresh k v d :
  dict_get k d = None -> dict_set k v d = d ++ [(k, v)].
Proof.
  induction d as [|[k' v'] d IH]; simpl; [reflexivity|].
  destruct (String.eqb k k'); [discriminate|].
  intros H. now rewrite IH.
Qed.

Lemma dict_get_app_fresh k (d1 d2 : pydict) :
  dict_get k d1 = None -> dict_get k (d1 ++ d2) = dict_get k d2.
Proof.
  induction d1 as [|[k' v'] d1 IH]; simpl; [reflexivity|].
  destruct (String.eqb k k'); [discriminate | exact IH].
Qed.

Lemma merge_items_fresh (n : pydict) : forall e : pydict,
  dict_wf n ->
  (forall k, k ∈ dict_keys n -> dict_get k e = None) ->
  merge_items n e = e ++ n.
Proof.
  induction n as [|[key value] n IH]; intros e Hwf Hfresh; simpl.
  - now rewrite app_nil_r.
  - inversion Hwf as [|? ? Hnotin Hwf']; subst.
    rewrite (Hfresh key) by (simpl; left).
    rewrite dict_set_fresh by (apply Hfresh; simpl; left).
    rewrite IH; [now rewrite <- app_assoc | exact Hwf' |].
    intros k Hk. rewrite dict_get_app_fresh by (apply Hfresh; simpl; now right).
    simpl. destruct (String.eqb k key) eqn:E; [|reflexivity].
    apply String.eqb_eq in E. subst k. contradiction.
Qed.

(** X1. The empty mapping is neutral for the merge: merging it into a
    mapping gives that mapping, and merging a mapping into it gives that
    mapping, entry for entry and in the same order. *)
Theorem merge_empty_mapping (a : pydict) :
  _merge_data_structures (JDict a) (JDict []) = JDict a /\
  (dict_wf a -> _merge_data_structures (JDict []) (JDict a) = JDict a).
Proof.
  split; [reflexivity|].
  intros Hwf. rewrite merge_dict_unfold.
  now rewrite merge_items_fresh.
Qed.

Lemma merge_empty_mapping_witness :
  _merge_data_structures (JDict sample_new) (JDict []) = JDict sample_new /\
  _merge_data_structures (JDict []) (JDict sample_new) = JDict sample_new.
Proof.
  destruct (merge_empty_mapping sample_new) as [Hl Hr].
  split; [exact Hl | apply Hr].
  apply (bool_decide_unpack _). vm_compute. exact I.
Defined.

Lemma dict_has_set k k' v d :
  dict_has k' (dict_set k v d) = dict_has k' d || String.eqb k' k.
Proof.
  unfold dict_has. rewrite dict_get_set.
  destruct (String.eqb k' k), (dict_get k' d); reflexivity.
Qed.

Lemma merge_items_keys (n : pydict) : forall e : pydict,
  dict_wf n ->
  dict_keys (merge_items n e)
  = dict_keys e ++ List.filter (fun k => negb (dict_has k e)) (dict_keys n).
Proof.
  induction n as [|[key value] n IH]; intros e Hwf; simpl.
  - now rewrite app_nil_r.
  - inversion Hwf as [|? ? Hnotin Hwf']; subst.
    assert (Hstep : forall v,
      dict_keys (merge_items n (dict_set key v e))
      = dict_keys e
        ++ (if negb (dict_has key e) then [key] else [])
        ++ List.filter (fun k => negb (dict_has k e)) (dict_keys n)).
    { intros v. rewrite IH by exact Hwf'. rewrite dict_keys_set.
      assert (Hf : List.filter (fun k => negb (dict_has k (dict_set key v e))) (dict_keys n)
                   = List.filter (fun k => negb (dict_has k e)) (dict_keys n)).
      { apply filter_ext_in. intros k Hk. rewrite dict_has_set.
        destruct (String.eqb k key) eqn:E; [|now rewrite orb_false_r].
        apply String.eqb_eq in E. subst k.
        exfalso. apply Hnotin. now apply list_elem_of_In. }
      rewrite Hf. destruct (dict_has key e); simpl; [reflexivity|].
      now rewrite <- app_assoc. }
    destruct (dict_get key e) as [old|] eqn:Hold; rewrite Hstep;
      unfold dict_has; rewrite Hold; reflexivity.
Qed.

(** X2. The merged mapping lists the keys of the existing mapping first, in
    their order, then the keys only the new mapping has, in the order the
    new mapping lists them. *)
Theorem merge_key_order (a b : pydict) :
  dict_wf b ->
  exists m,
    _merge_data_structures (JDict a) (JDict b) = JDict m /\
    dict_keys m = dict_keys a ++ List.filter (fun k => negb (dict_has k a)) (dict_keys b).
Proof.
  intros Hwf. exists (merge_items b a).
  split; [apply merge_dict_unfold | now apply merge_items_keys].
Qed.

Lemma merge_key_order_witness :
  exists m,
    _merge_data_structures (JDict sample_existing) (JDict sample_new) = JDict m /\
    dict_keys m = ["tags"; "name"; "only_a"; "only_b"].
Proof.
  destruct (merge_key_order sample_existing sample_new) as (m & Hm & Hk).
  - apply (bool_decide_unpack _). vm_compute. exact I.
  - exists m. split; [exact Hm | exact Hk].
Defined.

(** X3. Merging keeps trees well formed: when every mapping of both trees
    has pairwise distinct keys, so has every mapping of the merged tree. *)
Theorem merge_keeps_keys_distinct (a b : json) :
  tree_wf a -> tree_wf b -> tree_wf (_merge_data_structures a b).
Proof. intros Ha Hb. now apply merge_preserves_wf. Qed.

Lemma merge_keeps_keys_distinct_witness :
  tree_wf (_merge_data_structures sample_tree sample_nested).
Proof.
  apply merge_keeps_keys_distinct.
  - simpl. repeat split; apply (bool_decide_unpack _); vm_compute; exact I.
  - simpl. repeat split; apply (bool_decide_unpack _); vm_compute; exact I.
Defined.

(** ** [_merge_search_data] *)

(** What [_merge_search_data] binds each key to. *)
Lemma merge_search_data_get (existing new : pydict) :
  dict_get "status" (_merge_search_data existing new)
    = match dict_get "status" new with
      | Some s => Some s
      | None => dict_get "status" existing
      end /\
  dict_get "scan_time" (_merge_search_data existing new)
    = match dict_get "scan_time" new with
      | Some t => Some t
      | None => dict_get "scan_time" existing
      end /\
  dict_get "data" (_merge_search_data existing new)
    = match dict_get "data" new, dict_get "data" existing with
      | Some nd, Some ed => Some (_merge_data_structures ed nd)
      | _, _ => dict_get "data" existing
      end /\
  (forall k, k <> "status" -> k <> "scan_time" -> k <> "data" ->
             dict_get k (_merge_search_data existing new) = dict_get k existing).
Proof.
  unfold _merge_search_data.
  set (m1 := match dict_get "data" new, dict_get "data" existing with
             | Some nd, Some ed => dict_set "data" (_merge_data_structures ed nd) existing
             | _, _ => existing
             end).
  set (m2 := match dict_get "scan_time" new with
             | Some t => dict_set "scan_time" t m1
             | None => m1
             end).
  assert (H1 : forall k, k <> "data" -> dict_get k m1 = dict_get k existing).
  { intros k Hk. unfold m1.
    destruct (dict_get "data" new), (dict_get "data" existing); try reflexivity.
    apply dict_get_set_ne. congruence. }
  assert (H2 : forall k, k <> "scan_time" -> dict_get k m2 = dict_get k m1).
  { intros k Hk. unfold m2. destruct (dict_get "scan_time" new); [|reflexivity].
    apply dict_get_set_ne. congruence. }
  assert (H3 : forall k, k <> "status" ->
               dict_get k (match dict_get "status" new with
                           | Some st => dict_set "status" st m2
                           | None => m2
                           end) = dict_get k m2).
  { intros k Hk. destruct (dict_get "status" new); [|reflexivity].
    apply dict_get_set_ne. congruence. }
  split; [|split; [|split]].
  - destruct (dict_get "status" new) as [s|]; [apply dict_get_set_eq|].
    rewrite H2, H1 by discriminate. reflexivity.
  - rewrite H3 by discriminate. unfold m2.
    destruct (dict_get "scan_time" new) as [t|]; [apply dict_get_set_eq|].
    now rewrite H1 by discriminate.
  - rewrite H3, H2 by discriminate. unfold m1.
    destruct (dict_get "data" new) as [nd|]; [|reflexivity].
    destruct (dict_get "data" existing) as [ed|] eqn:He; [apply dict_get_set_eq|].
    exact He.
  - intros k Hs Ht Hd. now rewrite H3, H2, H1.
Qed.

(** X4. Merging two results of one category: [status] and [scan_time] are
    the new result's when it has them; [data] is merged only when both
    results have it, and otherwise stays as stored (new data is not taken);
    every other key, such as the [error] of an earlier failure, stays as
    stored and is never taken from the new result. *)
Theorem merge_search_data_lookup (existing new : pydict) :
  dict_get "status" (_merge_search_data existing new)
    = match dict_get "status" new with
      | Some s => Some s
      | None => dict_get "status" existing
      end /\
  dict_get "scan_time" (_merge_search_data existing new)
    = match dict_get "scan_time" new with
      | Some t => Some t
      | None => dict_get "scan_time" existing
      end /\
  dict_get "data" (_merge_search_data existing new)
    = match dict_get "data" new, dict_get "data" existing with
      | Some nd, Some ed => Some (_merge_data_structures ed nd)
      | _, _ => dict_get "data" existing
      end /\
  (forall k, k <> "status" -> k <> "scan_time" -> k <> "data" ->
             dict_get k (_merge_search_data existing new) = dict_get k existing).
Proof.
  destruct (merge_search_data_get existing new) as (Hstatus & Htime & Hdata & Hframe).
  split; [exact Hstatus|]. split; [exact Htime|]. split; [exact Hdata|].
  intros k Hs Ht Hd. now apply Hframe.
Qed.

Lemma merge_search_data_lookup_witness :
  dict_get "error"
    (_merge_search_data
       [("data", JDict []); ("error", JStr "timeout"); ("status", JStr "failed")]
       [("data", JDict [("hits", JInt 3)]); ("scan_time", JFloat PrimFloat.one);
        ("status", JStr "completed")])
  = Some (JStr "timeout").
Proof.
  rewrite (proj2 (proj2 (proj2 (merge_search_data_lookup _ _))));
    [reflexivity | discriminate..].
Defined.

(** ** [_merge_scan_results] *)

(** One iteration on a session whose [results] is a dictionary (or absent):
    it returns, rebinding at most [results]. *)
Lemma merge_results_step_dict (md : pydict) (item : string * json) (r : pydict) :
  results_of md = Some r ->
  exists md',
    merge_results_step (JDict md) item = Ok (JDict md') /\
    results_of md' = Some (results_step r item) /\
    (forall k, k <> "results" -> dict_get k md' = dict_get k md).
Proof.
  destruct item as [st nd]. unfold results_of, merge_results_step, results_step.
  cbn [py_get bind].
  destruct (dict_get "results" md) as [[| | | | | |r0]|] eqn:Hr; try discriminate.
  - intros [= <-]. cbn [py_contains bind]. unfold dict_has.
    destruct (dict_get st r0) as [ed|] eqn:Hst; cbn [negb].
    + cbn [py_getitem bind]. rewrite Hr. cbn [bind py_getitem]. rewrite Hst.
      cbn [bind].
      destruct ed as [| | | | | |ed]; try (exists md; rewrite Hr; now repeat split).
      destruct nd as [| | | | | |nd]; try (exists md; rewrite Hr; now repeat split).
      cbn [py_setitem bind]. eexists. split; [reflexivity|].
      rewrite dict_get_set_eq. split; [reflexivity|].
      intros k Hk. apply dict_get_set_ne. congruence.
    + cbn [py_setitem bind]. eexists. split; [reflexivity|].
      rewrite dict_get_set_eq. split; [reflexivity|].
      intros k Hk. apply dict_get_set_ne. congruence.
  - intros [= <-]. cbn [py_contains bind dict_has dict_get negb py_setitem].
    eexists. split; [reflexivity|].
    rewrite dict_get_set_eq. split; [reflexivity|].
    intros k Hk. apply dict_get_set_ne. congruence.
Qed.

Lemma merge_results_loop_dict (items : list (string * json)) :
  forall (md r : pydict),
  results_of md = Some r ->
  exists md',
    foldM merge_results_step items (JDict md) = Ok (JDict md') /\
    results_of md' = Some (fold_left results_step items r) /\
    (forall k, k <> "results" -> dict_get k md' = dict_get k md).
Proof.
  induction items as [|item items IH]; intros md r Hr; simpl.
  - exists md. now repeat split.
  - destruct (merge_results_step_dict md item r Hr) as (md1 & Hstep & Hr1 & Hf1).
    rewrite Hstep. cbn [bind].
    destruct (IH md1 _ Hr1) as (md' & Hloop & Hr' & Hf').
    exists md'. split; [exact Hloop|]. split; [exact Hr'|].
    intros k Hk. now rewrite Hf', Hf1.
Qed.

Lemma results_step_get (r : pydict) (item : string * json) k :
  dict_get k (results_step r item)
  = if String.eqb k (fst item)
    then Some (merge_entry (dict_get k r) (snd item))
    else dict_get k r.
Proof.
  destruct item as [st nd]. unfold results_step. simpl fst. simpl snd.
  destruct (String.eqb k st) eqn:E.
  - apply String.eqb_eq in E. subst st.
    destruct (dict_get k r) as [[| | | | | |ed]|] eqn:Hk; simpl;
      try (now rewrite Hk); try apply dict_get_set_eq.
    destruct nd; simpl; try (now rewrite Hk); apply dict_get_set_eq.
  - apply String.eqb_neq in E.
    destruct (dict_get st r) as [[| | | | | |ed]|]; try reflexivity.
    + destruct nd; try reflexivity. apply dict_get_set_ne. congruence.
    + apply dict_get_set_ne. congruence.
Qed.

Lemma results_fold_get (items : pydict) : forall (r : pydict) k,
  dict_wf items ->
  dict_get k (fold_left results_step items r)
  = match dict_get k items with
    | Some nd => Some (merge_entry (dict_get k r) nd)
    | None => dict_get k r
    end.
Proof.
  induction items as [|[st nd] items IH]; intros r k Hwf;
    cbn [fold_left dict_get]; [reflexivity|].
  inversion Hwf as [|? ? Hnotin Hwf']; subst.
  rewrite IH by exact Hwf'. rewrite results_step_get. simpl fst. simpl snd.
  destruct (String.eqb k st) eqn:E; [|reflexivity].
  apply String.eqb_eq in E. subst st.
  now rewrite (dict_get_not_in k items Hnotin).
Qed.

(** X5. Merging two sessions whose [results] are dictionaries returns, and
    category by category: one only the stored session has is kept, one only
    the new session has is inserted as it is, one both have as dictionaries
    is merged by [_merge_search_data], and when either entry is not a
    dictionary the stored entry stays and the new one is dropped. *)
Theorem merge_scan_results_by_category (existing new re rn : pydict) :
  results_of existing = Some re ->
  results_of new = Some rn ->
  dict_wf rn ->
  exists m rm,
    _merge_scan_results (JDict existing) (JDict new) = Ok (JDict m) /\
    results_of m = Some rm /\
    forall k,
      dict_get k rm = match dict_get k rn with
                      | Some nd => Some (merge_entry (dict_get k re) nd)
                      | None => dict_get k re
                      end.
Proof.
  intros Hre Hrn Hwf. unfold _merge_scan_results. cbn [py_copy bind py_get].
  assert (Hitems : py_items (match dict_get "results" new with
                             | Some v => v
                             | None => JDict []
                             end) = Ok rn).
  { unfold results_of in Hrn.
    destruct (dict_get "results" new) as [[| | | | | |r0]|]; try discriminate;
      now injection Hrn as <-. }
  rewrite Hitems. cbn [bind].
  destruct (merge_results_loop_dict rn existing re Hre) as (m & Hloop & Hrm & _).
  exists m, (fold_left results_step rn re).
  split; [exact Hloop|]. split; [exact Hrm|].
  intros k. now apply results_fold_get.
Qed.

(** Whatever one iteration rebinds, it is [results]. *)
Lemma merge_results_step_frame (md : pydict) (item : string * json) (m' : json) :
  merge_results_step (JDict md) item = Ok m' ->
  exists md', m' = JDict md' /\
              forall k, k <> "results" -> dict_get k md' = dict_get k md.
Proof.
  destruct item as [st nd]. unfold merge_results_step. intros H.
  inv_bind H as current Hcur. inv_bind H as present Hpres.
  assert (Hset : forall slot m1,
             py_setitem (JDict md) "results" slot = Ok m1 ->
             exists md', m1 = JDict md' /\
                         forall k, k <> "results" -> dict_get k md' = dict_get k md).
  { intros slot m1 [= <-]. eexists. split; [reflexivity|].
    intros k Hk. apply dict_get_set_ne. congruence. }
  destruct (negb present).
  - inv_bind H as slot Hslot. now apply (Hset slot).
  - inv_bind H as container Hcont. inv_bind H as existing_data Hed.
    destruct existing_data; try (injection H as <-; exists md; now split).
    destruct nd; try (injection H as <-; exists md; now split).
    inv_bind H as slot Hslot. now apply (Hset slot).
Qed.

(** X6. The session merge touches nothing but [results]: every other
    top-level key of the stored session ([target], [scan_time],
    [search_types]) keeps its stored value, and none is taken from the new
    session. *)
Theorem merge_scan_results_frame (existing : pydict) (new m : json) :
  _merge_scan_results (JDict existing) new = Ok m ->
  exists md,
    m = JDict md /\
    forall k, k <> "results" -> dict_get k md = dict_get k existing.
Proof.
  unfold _merge_scan_results. cbn [py_copy bind]. intros H.
  inv_bind H as new_results Hnr. inv_bind H as items Hitems.
  clear Hnr Hitems. revert existing H.
  induction items as [|item items IH]; intros existing H; simpl in H.
  - injection H as <-. exists existing. now split.
  - inv_bind H as m1 Hstep.
    apply merge_results_step_frame in Hstep.
    destruct Hstep as (md1 & -> & Hf1).
    destruct (IH md1 H) as (md & -> & Hf).
    exists md. split; [reflexivity|].
    intros k Hk. now rewrite Hf, Hf1.
Qed.

Lemma merge_scan_results_frame_witness :
  exists md,
    _merge_scan_results social_session breach_session = Ok (JDict md) /\
    dict_get "scan_time" md = Some (JStr "2024-01-02T03:04:00") /\
    dict_get "search_types" md = Some (JList [JStr "social"]).
Proof.
  destruct (_merge_scan_results social_session breach_session) as [m|e] eqn:Hm;
    [|vm_compute in Hm; discriminate Hm].
  destruct (merge_scan_results_frame _ _ _ Hm) as (md & -> & Hf).
  exists md. split; [reflexivity|].
  split; (rewrite Hf by discriminate; reflexivity).
Defined.

Lemma merge_scan_results_by_category_witness :
  exists m rm,
    _merge_scan_results social_session breach_session = Ok (JDict m) /\
    results_of m = Some rm /\
    dict_keys rm = ["social"; "breach"].
Proof.
  destruct (merge_scan_results_by_category
              (fields_of social_session) (fields_of breach_session)
              (results_fields social_session) (results_fields breach_session))
    as (m & rm & Hm & Hrm & _).
  - reflexivity.
  - reflexivity.
  - apply (bool_decide_unpack _). vm_compute. exact I.
  - exists m, rm. split; [exact Hm|]. split; [exact Hrm|].
    vm_compute in Hm. injection Hm as <-.
    vm_compute in Hrm. injection Hrm as <-. reflexivity.
Defined.

Lemma merge_results_loop_fresh (items : pydict) : forall r : pydict,
  dict_wf items ->
  (forall k, k ∈ dict_keys items -> dict_get k r = None) ->
  foldM merge_results_step items (JDict [("results", JDict r)])
  = Ok (JDict [("results", JDict (r ++ items))]).
Proof.
  induction items as [|[st nd] items IH]; intros r Hwf Hfresh; cbn [foldM].
  - now rewrite app_nil_r.
  - inversion Hwf as [|? ? Hnotin Hwf']; subst.
    assert (Hst : dict_get st r = None) by (apply Hfresh; simpl; left).
    assert (Hstep : merge_results_step (JDict [("results", JDict r)]) (st, nd)
                    = Ok (JDict [("results", JDict (r ++ [(st, nd)]))])).
    { unfold merge_results_step.
      cbn [py_get dict_get String.eqb Ascii.eqb Bool.eqb bind py_contains].
      unfold dict_has. rewrite Hst.
      cbn [negb py_setitem bind dict_set String.eqb Ascii.eqb Bool.eqb].
      now rewrite dict_set_fresh. }
    rewrite Hstep. cbn [bind]. rewrite IH; [now rewrite <- app_assoc | exact Hwf' |].
    intros k Hk. rewrite dict_get_app_fresh by (apply Hfresh; simpl; now right).
    simpl. destruct (String.eqb k st) eqn:E; [|reflexivity].
    apply String.eqb_eq in E. subst k. contradiction.
Qed.

(** X7. Merging a session into an empty tree keeps its [results] and
    nothing else: [target], [scan_time] and [search_types] are dropped, and a
    session without results leaves the tree empty. *)
Theorem merge_scan_results_into_empty (new rn : pydict) :
  results_of new = Some rn ->
  dict_wf rn ->
  _merge_scan_results (JDict []) (JDict new)
  = Ok (match rn with
        | [] => JDict []
        | _ => JDict [("results", JDict rn)]
        end).
Proof.
  intros Hrn Hwf. unfold _merge_scan_results. cbn [py_copy bind py_get].
  assert (Hitems : py_items (match dict_get "results" new with
                             | Some v => v
                             | None => JDict []
                             end) = Ok rn).
  { unfold results_of in Hrn.
    destruct (dict_get "results" new) as [[| | | | | |r0]|]; try discriminate;
      now injection Hrn as <-. }
  rewrite Hitems. cbn [bind].
  destruct rn as [|[st nd] rest]; [reflexivity|].
  inversion Hwf as [|? ? Hnotin Hwf']; subst.
  cbn [foldM].
  assert (Hstep : merge_results_step (JDict []) (st, nd)
                  = Ok (JDict [("results", JDict [(st, nd)])])) by reflexivity.
  rewrite Hstep. cbn [bind].
  rewrite merge_results_loop_fresh; [reflexivity | exact Hwf' |].
  intros k Hk. simpl. destruct (String.eqb k st) eqn:E; [|reflexivity].
  apply String.eqb_eq in E. subst k. contradiction.
Qed.

Lemma merge_scan_results_into_empty_witness :
  _merge_scan_results (JDict []) social_session
  = Ok (JDict [("results",
                JDict [("social",
                        JDict [("data", JDict [("summary",
                                                JDict [("found_profiles", JInt 2)])]);
                               ("scan_time", JFloat PrimFloat.one);
                               ("status", JStr "completed")])])]).
Proof.
  apply (merge_scan_results_into_empty (fields_of social_session)
           [("social",
             JDict [("data", JDict [("summary", JDict [("found_profiles", JInt 2)])]);
                    ("scan_time", JFloat PrimFloat.one);
                    ("status", JStr "completed")])]).
  - reflexivity.
  - apply (bool_decide_unpack _). vm_compute. exact I.
Defined.

(** ** [_generate_summary] *)

Lemma summary_count_spec (data : json) (key : string) :
  summary_count data key
  = if payload_ok data then Ok (count_value data key) else Raise AttributeError.
Proof.
  unfold summary_count, payload_ok, count_value.
  destruct data as [| | | | | |d]; try reflexivity.
  cbn [py_get bind].
  destruct (dict_get "summary" d) as [[| | | | | |s]|]; reflexivity.
Qed.

Lemma known_category_cases k :
  known_category k =
    String.eqb k "social" || (String.eqb k "breach" || (String.eqb k "public"
    || (String.eqb k "domain" || (String.eqb k "images"
    || (String.eqb k "geolocation" || false))))).
Proof. reflexivity. Qed.

(** The three ways one iteration of the summary loop can go. *)
Lemma summary_step_cases (s : summary) (k : string) (v : json) :
  (entry_completed v = false /\ summary_step s (k, v) = Ok s) \/
  (entry_completed v = true /\ known_category k = true /\
   payload_ok (entry_data v) = false /\
   summary_step s (k, v) = Raise AttributeError) \/
  (entry_completed v = true /\
   (known_category k = false \/ payload_ok (entry_data v) = true) /\
   exists s',
     summary_step s (k, v) = Ok s' /\
     total_scans s' = (total_scans s + 1)%Z /\
     forall cat key, In (cat, key) category_counters ->
       summary_field cat s'
       = if String.eqb cat k then Some (count_value (entry_data v) key)
         else summary_field cat s).
Proof.
  destruct v as [| | | | | |sd]; try (left; split; reflexivity).
  unfold entry_completed. destruct (status_completed sd) eqn:Hst;
    [|left; split; [reflexivity | unfold summary_step; now rewrite Hst]].
  right. unfold summary_step. rewrite Hst.
  change (match dict_get "data" sd with Some v => v | None => JDict [] end)
    with (entry_data (JDict sd)).
  rewrite known_category_cases.
  repeat match goal with
  | |- context [String.eqb k ?c] =>
      let E := fresh "E" in
      destruct (String.eqb k c) eqn:E;
      [apply String.eqb_eq in E; subst k; rewrite summary_count_spec;
       destruct (payload_ok (entry_data (JDict sd))) eqn:Hp;
       [right; split; [reflexivity|]; split; [now right|];
        eexists; split; [reflexivity|]; split; [reflexivity|];
        intros cat key Hin; simpl in Hin;
        decompose [or] Hin; clear Hin;
        try match goal with H : (_, _) = (_, _) |- _ => injection H as <- <- end;
        try contradiction; reflexivity
       |left; repeat split; reflexivity]
      |]
  end.
  right. split; [reflexivity|]. split; [now left|].
  eexists. split; [reflexivity|]. split; [reflexivity|].
  intros cat key Hin. simpl in Hin.
  decompose [or] Hin; clear Hin;
    try match goal with H : (_, _) = (_, _) |- _ => injection H as <- <- end;
    try contradiction;
    (rewrite String.eqb_sym;
     match goal with H : String.eqb k ?c = false |- context [String.eqb k ?c] =>
       rewrite H end; reflexivity).
Qed.

Lemma summary_loop_total (items : pydict) : forall s0 s,
  foldM summary_step items s0 = Ok s ->
  total_scans s
  = (total_scans s0
     + Z.of_nat (length (List.filter (fun kv => entry_completed (snd kv)) items)))%Z.
Proof.
  induction items as [|[k v] items IH]; intros s0 s H; cbn [foldM] in H.
  - injection H as <-. simpl. lia.
  - inv_bind H as s1 Hstep. apply IH in H. rewrite H. cbn [List.filter snd].
    destruct (summary_step_cases s0 k v)
      as [[Hc Hs]|[(Hc & _ & _ & Hs)|(Hc & _ & s' & Hs & Ht & _)]];
      rewrite Hs in Hstep; try discriminate Hstep; injection Hstep as <-;
      rewrite Hc; [lia|]. rewrite Ht. cbn [length]. lia.
Qed.

Lemma summary_loop_safe (items : pydict) : forall s0,
  if forallb item_ok items
  then exists s, foldM summary_step items s0 = Ok s
  else foldM summary_step items s0 = Raise AttributeError.
Proof.
  induction items as [|[k v] items IH]; intros s0; cbn [forallb foldM].
  - now exists s0.
  - unfold item_ok at 1. cbn [fst snd].
    destruct (summary_step_cases s0 k v)
      as [[Hc Hs]|[(Hc & Hk & Hp & Hs)|(Hc & Hkp & s' & Hs & _)]];
      rewrite Hs; cbn [bind].
    + rewrite Hc. cbn [andb negb orb]. apply IH.
    + rewrite Hc, Hk, Hp. reflexivity.
    + assert (Hok : negb (entry_completed v && known_category k)
                    || payload_ok (entry_data v) = true).
      { rewrite Hc. destruct Hkp as [-> | ->]; [reflexivity | apply orb_true_r]. }
      rewrite Hok. cbn [andb]. apply IH.
Qed.

Lemma summary_loop_field (items : pydict) : forall s0 s cat key,
  dict_wf items ->
  In (cat, key) category_counters ->
  foldM summary_step items s0 = Ok s ->
  summary_field cat s
  = match dict_get cat items with
    | Some v => if entry_completed v
                then Some (count_value (entry_data v) key)
                else summary_field cat s0
    | None => summary_field cat s0
    end.
Proof.
  induction items as [|[k v] items IH]; intros s0 s cat key Hwf Hin H;
    cbn [foldM dict_get] in *.
  - now injection H as <-.
  - inversion Hwf as [|? ? Hnotin Hwf']; subst.
    inv_bind H as s1 Hstep.
    rewrite (IH s1 s cat key Hwf' Hin H).
    destruct (summary_step_cases s0 k v)
      as [[Hc Hs]|[(Hc & _ & _ & Hs)|(Hc & _ & s' & Hs & _ & Hf)]];
      rewrite Hs in Hstep; try discriminate Hstep; injection Hstep as <-.
    + destruct (String.eqb cat k) eqn:E; [|reflexivity].
      apply String.eqb_eq in E. subst k.
      now rewrite (dict_get_not_in cat items Hnotin), Hc.
    + rewrite (Hf cat key Hin).
      destruct (String.eqb cat k) eqn:E; [|reflexivity].
      apply String.eqb_eq in E. subst k.
      now rewrite (dict_get_not_in cat items Hnotin), Hc.
Qed.

Lemma generate_summary_inv (scan_results j : json) :
  _generate_summary scan_results = Ok j ->
  exists fields items s,
    scan_results = JDict fields /\
    results_of fields = Some items /\
    foldM summary_step items summary_init = Ok s /\
    j = summary_to_json s.
Proof.
  unfold _generate_summary, _generate_summary_record. intros H.
  inv_bind H as s Hs. injection H as <-.
  inv_bind Hs as results Hres. inv_bind Hs as items Hitems.
  destruct scan_results as [| | | | | |fields]; try discriminate Hres.
  injection Hres as <-.
  exists fields, items, s. split; [reflexivity|]. split; [|now split].
  unfold results_of. destruct (dict_get "results" fields) as [[| | | | | |r]|];
    try discriminate Hitems; now injection Hitems as <-.
Qed.

Lemma generate_summary_loop (fields items : pydict) :
  results_of fields = Some items ->
  _generate_summary (JDict fields)
  = bind (foldM summary_step items summary_init) (fun s => Ok (summary_to_json s)).
Proof.
  unfold results_of, _generate_summary, _generate_summary_record.
  cbn [py_get bind].
  destruct (dict_get "results" fields) as [[| | | | | |r]|]; try discriminate;
    now intros [= <-].
Qed.

(** X8. When [_generate_summary] returns, [total_scans] is the number of
    entries of [results] that are dictionaries with status ["completed"]:
    failed entries and entries that are not dictionaries are not counted,
    completed ones are counted whatever their category. *)
Theorem summary_counts_completed (scan_results j : json) :
  _generate_summary scan_results = Ok j ->
  exists fields items s,
    scan_results = JDict fields /\
    results_of fields = Some items /\
    j = summary_to_json s /\
    total_scans s
    = Z.of_nat (length (List.filter (fun kv => entry_completed (snd kv)) items)).
Proof.
  intros H. apply generate_summary_inv in H.
  destruct H as (fields & items & s & -> & Hr & Hloop & ->).
  exists fields, items, s. repeat split; try assumption.
  now rewrite (summary_loop_total _ _ _ Hloop).
Qed.

Lemma summary_counts_completed_witness :
  exists s,
    _generate_summary mixed_session = Ok (summary_to_json s) /\
    total_scans s = 2%Z.
Proof.
  destruct (_generate_summary mixed_session) as [j|e] eqn:Hj;
    [|vm_compute in Hj; discriminate Hj].
  destruct (summary_counts_completed _ _ Hj)
    as (fields & items & s & Hf & Hr & -> & Ht).
  exists s. split; [reflexivity|].
  injection Hf as <-. vm_compute in Hr. injection Hr as <-. exact Ht.
Defined.

(** X9. When [_generate_summary] returns, the counter of each of the six
    known categories is what that category's completed entry holds under
    [data["summary"]] at the category's key (0 when the key or [summary] is
    missing), and 0 when the category is absent from [results] or its entry
    is not completed. *)
Theorem summary_counter_of_category (fields items : pydict) (j : json)
    (cat key : string) :
  results_of fields = Some items ->
  dict_wf items ->
  In (cat, key) category_counters ->
  _generate_summary (JDict fields) = Ok j ->
  exists s,
    j = summary_to_json s /\
    summary_field cat s
    = Some (match dict_get cat items with
            | Some v => if entry_completed v
                        then count_value (entry_data v) key
                        else JInt 0
            | None => JInt 0
            end).
Proof.
  intros Hr Hwf Hin H. rewrite (generate_summary_loop _ _ Hr) in H.
  inv_bind H as s Hloop. injection H as <-.
  exists s. split; [reflexivity|].
  rewrite (summary_loop_field _ _ _ _ _ Hwf Hin Hloop).
  assert (H0 : summary_field cat summary_init = Some (JInt 0)).
  { simpl in Hin. decompose [or] Hin; clear Hin;
      try match goal with H : (_, _) = (_, _) |- _ => injection H as <- <- end;
      try contradiction; reflexivity. }
  rewrite H0. destruct (dict_get cat items) as [v|]; [|reflexivity].
  now destruct (entry_completed v).
Qed.

Lemma summary_counter_of_category_witness :
  exists s,
    _generate_summary mixed_session = Ok (summary_to_json s) /\
    summary_field "breach" s = Some (JInt 4) /\
    summary_field "social" s = Some (JInt 0).
Proof.
  destruct (_generate_summary mixed_session) as [j|e] eqn:Hj;
    [|vm_compute in Hj; discriminate Hj].
  assert (Hwf : dict_wf (results_fields mixed_session))
    by (apply (bool_decide_unpack _); vm_compute; exact I).
  destruct (summary_counter_of_category (fields_of mixed_session)
              (results_fields mixed_session) j "breach" "total_breaches"
              eq_refl Hwf) as (s & -> & Hb); [simpl; tauto | exact Hj |].
  exists s. split; [reflexivity|]. split; [exact Hb|].
  destruct (summary_counter_of_category (fields_of mixed_session)
              (results_fields mixed_session) (summary_to_json s) "social"
              "found_profiles" eq_refl Hwf) as (s' & Hs' & Hsoc);
    [simpl; tauto | exact Hj |].
  assert (s' = s) as -> by (destruct s, s'; simpl in Hs'; inversion Hs'; reflexivity).
  exact Hsoc.
Defined.

(** X10. [_generate_summary] on a session whose [results] is a dictionary
    returns exactly when every completed entry of a known category has a
    payload it can read (a dictionary whose [summary], if any, is a
    dictionary); otherwise it raises [AttributeError]. Entries that are
    failed, or of an unknown category, never make it raise. *)
Theorem summary_raises_on_unreadable_payload (fields items : pydict) :
  results_of fields = Some items ->
  (forallb item_ok items = true ->
     exists j, _generate_summary (JDict fields) = Ok j) /\
  (forallb item_ok items = false ->
     _generate_summary (JDict fields) = Raise AttributeError).
Proof.
  intros Hr. rewrite (generate_summary_loop _ _ Hr).
  pose proof (summary_loop_safe items summary_init) as Hsafe.
  split; intros Hok; rewrite Hok in Hsafe.
  - destruct Hsafe as [s ->]. cbn [bind]. eauto.
  - now rewrite Hsafe.
Qed.

Lemma summary_raises_on_unreadable_payload_witness :
  (exists j, _generate_summary mixed_session = Ok j) /\
  _generate_summary list_payload_session = Raise AttributeError.
Proof.
  split.
  - apply (proj1 (summary_raises_on_unreadable_payload (fields_of mixed_session)
                    (results_fields mixed_session) eq_refl)).
    reflexivity.
  - apply (proj2 (summary_raises_on_unreadable_payload
                    (fields_of list_payload_session)
                    (results_fields list_payload_session) eq_refl)).
    reflexivity.
Defined.

(** ** Profile store: what a save leaves *)

Section StoreFacts.
Context {R : Runtime}.

(** The two shapes of the profile a successful save stores. *)
Lemma save_profile_stored target session pn st w name st' w' :
  save_profile target session pn st w = (Ok (name, st'), w') ->
  exists created updated summary,
    _generate_summary session = Ok summary /\
    ((match load_profile st name with
      | Some existing => truthy existing = false
      | None => True
      end /\
      load_profile st' name
      = Some (profile_record target name created updated session summary))
     \/
     (exists p hist cd sm,
        load_profile st name = Some (JDict p) /\
        truthy (JDict p) = true /\
        dict_get "scan_history" p = Some (JList hist) /\
        _merge_scan_results
          (match dict_get "current_data" p with Some v => v | None => JDict [] end)
          session = Ok cd /\
        _generate_summary cd = Ok sm /\
        load_profile st' name =
          Some (JDict
                  (dict_set "summary" sm
                     (dict_set "current_data" cd
                        (dict_set "scan_history"
                           (JList (hist ++ [history_entry updated session]))
                           (dict_set "last_updated" (JStr (isoformat updated)) p))))))).
Proof.
  intros Hsave. apply save_profile_inv in Hsave.
  destruct Hsave as (w1 & created & w2 & updated & summary & stored
                     & _ & _ & _ & Hsum & Hstored & Hwrite).
  apply write_profile_inv in Hwrite. destruct Hwrite as [Hl _].
  exists created, updated, summary. split; [exact Hsum|].
  destruct (load_profile st name) as [existing|] eqn:Hload.
  - destruct (truthy existing) eqn:Ht.
    + right. apply merge_profiles_inv in Hstored.
      destruct Hstored as (p & hist & cd & sm & -> & Hh & Hcd & Hsm & ->).
      exists p, hist, cd, sm. repeat split; assumption.
    + left. injection Hstored as <-. now split.
  - left. injection Hstored as <-. now split.
Qed.

End StoreFacts.



(** X12. After every save that returns, the stored [summary] is
    [_generate_summary] of the stored [current_data]: the two cannot drift
    apart, on a first save as on a merging one. *)
Theorem stored_summary_matches_data {R : Runtime} (target : Target) (session : json)
    (pn : option string) (st st' : Store) (w w' : World) (name : string) :
  save_profile target session pn st w = (Ok (name, st'), w') ->
  exists p current_data summary,
    load_profile st' name = Some (JDict p) /\
    dict_get "current_data" p = Some current_data /\
    dict_get "summary" p = Some summary /\
    _generate_summary current_data = Ok summary.
Proof.
  intros Hsave.
  destruct (save_profile_stored _ _ _ _ _ _ _ _ Hsave)
    as (created & updated & summary & Hsum & [[_ Hl]|Hm]).
  - eexists _, session, summary. split; [exact Hl|]. now repeat split.
  - destruct Hm as (p & hist & cd & sm & _ & _ & _ & _ & Hsm & Hl).
    eexists _, cd, sm. split; [exact Hl|]. split; [|split; [|exact Hsm]].
    + rewrite dict_get_set_ne by discriminate. apply dict_get_set_eq.
    + apply dict_get_set_eq.
Qed.

Lemma stored_summary_matches_data_witness :
  exists p current_data summary,
    load_profile store_after_second "profile_alice" = Some (JDict p) /\
    dict_get "current_data" p = Some current_data /\
    dict_get "summary" p = Some summary /\
    _generate_summary current_data = Ok summary.
Proof.
  apply (@stored_summary_matches_data sample_runtime alice breach_session None
           store_after_first store_after_second 2%nat 4%nat "profile_alice").
  vm_compute. reflexivity.
Defined.



(** X14. The history is append-only: a save over a stored profile keeps
    every earlier entry of [scan_history] in place and appends exactly one,
    which holds the session saved and whose timestamp is the new
    [last_updated]. *)
Theorem save_appends_one_history_entry {R : Runtime} (target : Target)
    (session : json) (pn : option string) (st st' : Store) (w w' : World)
    (name : string) (existing : json) :
  save_profile target session pn st w = (Ok (name, st'), w') ->
  load_profile st name = Some existing ->
  truthy existing = true ->
  exists e p hist entry,
    existing = JDict e /\
    dict_get "scan_history" e = Some (JList hist) /\
    load_profile st' name = Some (JDict p) /\
    dict_get "scan_history" p = Some (JList (hist ++ [entry])) /\
    entry_session entry = Some session /\
    lookup_path ["timestamp"] entry = dict_get "last_updated" p.
Proof.
  intros Hsave Hload Ht.
  destruct (save_profile_over_existing _ _ _ _ _ _ _ _ _ Hsave Hload Ht)
    as (e & hist & cd & sm & updated & -> & Hh & _ & _ & Hl).
  eexists e, _, hist, (history_entry updated session).
  split; [reflexivity|]. split; [exact Hh|]. split; [exact Hl|].
  split; [|split; [reflexivity|]].
  - rewrite !dict_get_set_ne by discriminate. apply dict_get_set_eq.
  - rewrite !dict_get_set_ne by discriminate. rewrite dict_get_set_eq.
    reflexivity.
Qed.

Lemma save_appends_one_history_entry_witness :
  exists e p hist entry,
    load_profile store_after_first "profile_alice" = Some (JDict e) /\
    dict_get "scan_history" e = Some (JList hist) /\
    load_profile store_after_second "profile_alice" = Some (JDict p) /\
    dict_get "scan_history" p = Some (JList (hist ++ [entry])) /\
    entry_session entry = Some breach_session.
Proof.
  destruct (@save_appends_one_history_entry sample_runtime alice breach_session None
              store_after_first store_after_second 2%nat 4%nat "profile_alice"
              (match load_profile store_after_first "profile_alice" with
               | Some j => j
               | None => JNull
               end))
    as (e & p & hist & entry & He & Hh & Hp & Hh' & Hs & _).
  - vm_compute. reflexivity.
  - vm_compute. reflexivity.
  - vm_compute. reflexivity.
  - exists e, p, hist, entry. rewrite <- He.
    split; [reflexivity|]. repeat split; assumption.
Defined.

(** ** Profile store: deleting *)



(** ** Listing the store *)

Section ListingFacts.
Variable path_of : string -> string.
Variable st : Store.



Lemma collect_profiles_raises (glob : list string) : forall profiles stem j,
  In stem glob ->
  files st !! stem = Some (FileJson j) ->
  (forall d, j <> JDict d) ->
  exists e, collect_profiles path_of st glob profiles = Raise e /\
            (e = AttributeError \/ e = TypeError).
Proof.
  assert (Hexn : forall s j r e, profile_metadata path_of s j = Raise e ->
                                 r = e -> r = AttributeError \/ r = TypeError).
  { intros s j r e H ->. unfold profile_metadata in H.
    destruct j as [| | | | | |d]; try (injection H as <-; now left).
    cbn [py_get bind] in H.
    destruct (py_len _) eqn:Hl; [discriminate H|].
    injection H as <-. unfold py_len in Hl.
    destruct (match dict_get "scan_history" d with Some v => v | None => JList [] end);
      try discriminate Hl; injection Hl as <-; now right. }
  induction glob as [|s glob IH]; intros profiles stem j Hin Hf Hnd; [destruct Hin|].
  cbn [collect_profiles].
  destruct (String.eqb s stem) eqn:E.
  - apply String.eqb_eq in E. subst s. rewrite Hf.
    destruct j as [| | | | | |d]; try (eexists; split; [reflexivity | now left]).
    now destruct (Hnd d).
  - assert (Hin' : In stem glob).
    { destruct Hin as [->|Hin]; [|exact Hin]. now rewrite String.eqb_refl in E. }
    destruct (files st !! s) as [[j'| |]|]; try (now apply (IH _ stem j)).
    destruct (profile_metadata path_of s j') as [record|e] eqn:Hrec; cbn [bind].
    + now apply (IH _ stem j).
    + exists e. split; [reflexivity|]. now apply (Hexn s j' e e).
Qed.

End ListingFacts.

Lemma insert_desc_perm key record sorted :
  Permutation (insert_desc key record sorted) ((key, record) :: sorted).
Proof.
  induction sorted as [|[k' r'] sorted IH]; simpl; [reflexivity|].
  destruct (String.ltb key k'); [|reflexivity].
  rewrite IH. apply perm_swap.
Qed.

Lemma ltb_leb s1 s2 : String.ltb s1 s2 = true -> String.leb s1 s2 = true.
Proof. unfold String.ltb, String.leb. now destruct (String.compare s1 s2). Qed.

Lemma not_ltb_leb s1 s2 : String.ltb s1 s2 = false -> String.leb s2 s1 = true.
Proof.
  unfold String.ltb, String.leb. rewrite (String.compare_antisym s2 s1).
  now destruct (String.compare s1 s2).
Qed.

Lemma insert_desc_descending key record sorted :
  descending (map fst sorted) ->
  descending (map fst (insert_desc key record sorted)).
Proof.
  induction sorted as [|[k1 r1] sorted IH]; intros Hd; [exact I|].
  cbn [insert_desc]. destruct (String.ltb key k1) eqn:E.
  - cbn [map fst]. specialize (IH (match sorted as l
                                     return descending (map fst ((k1, r1) :: l)) ->
                                            descending (map fst l) with
                                   | [] => fun _ => I
                                   | _ :: _ => fun H => proj2 H
                                   end Hd)).
    destruct sorted as [|[k2 r2] sorted]; cbn [insert_desc map fst] in *.
    + split; [now apply ltb_leb | exact I].
    + destruct (String.ltb key k2) eqn:E2; cbn [map fst] in *.
      * split; [exact (proj1 Hd) | exact IH].
      * split; [now apply ltb_leb | exact IH].
  - cbn [map fst]. split; [now apply not_ltb_leb | exact Hd].
Qed.

Lemma sort_desc_descending (keyed : list (string * json)) :
  descending (map fst (fold_right (fun kr acc => insert_desc (fst kr) (snd kr) acc)
                         [] keyed)).
Proof.
  induction keyed as [|[k r] keyed IH]; [exact I|].
  cbn [fold_right fst snd]. now apply insert_desc_descending.
Qed.

Lemma sort_desc_perm (keyed : list (string * json)) :
  Permutation (fold_right (fun kr acc => insert_desc (fst kr) (snd kr) acc) [] keyed)
    keyed.
Proof.
  induction keyed as [|[k r] keyed IH]; [reflexivity|].
  cbn [fold_right fst snd]. rewrite insert_desc_perm. now constructor.
Qed.

Lemma keyed_records_snd (records : list json) : forall keyed,
  keyed_records records = Some keyed -> map snd keyed = records.
Proof.
  induction records as [|r records IH]; intros keyed H; simpl in H.
  - now injection H as <-.
  - destruct (last_updated_key r); [|discriminate].
    destruct (keyed_records records) as [krest|]; [|discriminate].
    injection H as <-. simpl. now rewrite (IH krest).
Qed.

Lemma keyed_records_keys (records : list json) : forall keyed,
  keyed_records records = Some keyed ->
  Forall (fun kr => last_updated_key (snd kr) = Some (fst kr)) keyed.
Proof.
  induction records as [|r records IH]; intros keyed H; simpl in H.
  - injection H as <-. constructor.
  - destruct (last_updated_key r) eqn:Hk; [|discriminate].
    destruct (keyed_records records) as [krest|]; [|discriminate].
    injection H as <-. constructor; [exact Hk | now apply IH].
Qed.



(** X17. When the [last_updated] of every record is a string,
    [list_profiles] returns the records it collected, rearranged so that
    [last_updated] never increases from one record to the next: most
    recently updated first. *)
Theorem list_profiles_sorted (path_of : string -> string) (st : Store)
    (glob : list string) (l : list json) :
  list_profiles path_of st glob = Ok (Some l) ->
  exists profiles keys,
    collect_profiles path_of st glob [] = Ok profiles /\
    Permutation l profiles /\
    map last_updated_key l = map Some keys /\
    descending keys.
Proof.
  unfold list_profiles. intros H. inv_bind H as profiles Hc. injection H as H.
  unfold sorted_by_last_updated in H.
  destruct (keyed_records profiles) as [keyed|] eqn:Hk; [|discriminate].
  injection H as <-.
  set (sorted := fold_right (fun kr acc => insert_desc (fst kr) (snd kr) acc) [] keyed).
  exists profiles, (map fst sorted). split; [exact Hc|]. split; [|split].
  - rewrite <- (keyed_records_snd _ _ Hk).
    apply Permutation_map. apply sort_desc_perm.
  - assert (Hall : Forall (fun kr => last_updated_key (snd kr) = Some (fst kr)) sorted).
    { pose proof (keyed_records_keys _ _ Hk) as Hkeyed.
      rewrite Forall_forall in Hkeyed |- *. intros kr Hin. apply Hkeyed.
      apply list_elem_of_In. apply list_elem_of_In in Hin.
      now rewrite <- (sort_desc_perm keyed). }
    rewrite !map_map. induction Hall as [|kr rest Hkr _ IH]; simpl; [reflexivity|].
    now rewrite Hkr, IH.
  - apply sort_desc_descending.
Qed.

Lemma list_profiles_sorted_witness :
  exists l,
    list_profiles sample_path listing_store ["broken"; "profile_alice"; "profile_bob"]
    = Ok (Some l) /\
    map last_updated_key l
    = [Some "2024-02-01T00:00:00"; Some "2024-01-02T03:04:01"].
Proof.
  destruct (list_profiles sample_path listing_store
              ["broken"; "profile_alice"; "profile_bob"]) as [[l|]|e] eqn:Hl;
    try (vm_compute in Hl; discriminate Hl).
  destruct (list_profiles_sorted _ _ _ _ Hl) as (profiles & keys & _ & _ & Hkeys & _).
  exists l. split; [reflexivity|].
  vm_compute in Hl. injection Hl as <-. reflexivity.
Defined.

(** X18. A file that holds valid JSON which is not an object is not
    skipped: it makes [list_profiles] raise ([AttributeError] from its
    [.get], unless an earlier file already raised), so one such file
    hides every profile of the directory from the listing. *)
Theorem list_profiles_raises_on_non_object (path_of : string -> string) (st : Store)
    (glob : list string) (stem : string) (j : json) :
  In stem glob ->
  files st !! stem = Some (FileJson j) ->
  (forall d, j <> JDict d) ->
  exists e, list_profiles path_of st glob = Raise e /\
            (e = AttributeError \/ e = TypeError).
Proof.
  intros Hin Hf Hnd. unfold list_profiles.
  destruct (collect_profiles_raises path_of st glob [] stem j Hin Hf Hnd)
    as (e & -> & He).
  exists e. now split.
Qed.

Lemma list_profiles_raises_on_non_object_witness :
  list_profiles sample_path store_with_array ["profile_alice"; "notes"]
  = Raise AttributeError.
Proof.
  destruct (list_profiles_raises_on_non_object sample_path store_with_array
              ["profile_alice"; "notes"] "notes" (JList [JStr "todo"]))
    as (e & He & _).
  - simpl. auto.
  - reflexivity.
  - intros d. discriminate.
  - rewrite He. vm_compute in He. now injection He as <-.
Defined.

(** ** Scan orchestrator: the shape of the results *)

Section ScanShape.
Context {R : Runtime}.
Variable scanners : registry.
Variable target : Target.
Variable nsfw : bool.

Lemma scan_step_results s x :
  match scanners_get x scanners with
  | Some _ => exists entry,
      st_results (scan_step scanners target nsfw s x)
      = dict_set x entry (st_results s) /\ slot_of_collector scanners target nsfw x entry
  | None => st_results (scan_step scanners target nsfw s x) = st_results s
  end.
Proof.
  unfold scan_step. destruct (scanners_get x scanners) as [c|] eqn:Hc; [|reflexivity].
  destruct (time_time (st_world s)) as [t0 w].
  destruct (c target nsfw w) as [[d|e] w'] eqn:Hrun.
  - destruct (time_time w') as [t1 w'']. eexists. split; [reflexivity|].
    exists c. split; [exact Hc|]. left. exists w, d, (PrimFloat.sub t1 t0).
    now rewrite Hrun.
  - eexists. split; [reflexivity|].
    exists c. split; [exact Hc|]. right. exists w, e. now rewrite Hrun.
Qed.

Lemma scan_loop_slots l : forall s,
  dict_wf (st_results s) ->
  (forall k v, dict_get k (st_results s) = Some v -> slot_of_collector scanners target nsfw k v) ->
  dict_wf (st_results (scan_loop scanners target nsfw l s)) /\
  (forall k v, dict_get k (st_results (scan_loop scanners target nsfw l s)) = Some v ->
               slot_of_collector scanners target nsfw k v).
Proof.
  induction l as [|x l IH]; intros s Hwf Hs; [now split|].
  unfold scan_loop in *. cbn [fold_left]. apply IH.
  - pose proof (scan_step_results s x) as Hx.
    destruct (scanners_get x scanners); [|now rewrite Hx].
    destruct Hx as (entry & -> & _). now apply dict_set_wf.
  - intros k v. pose proof (scan_step_results s x) as Hx.
    destruct (scanners_get x scanners); [|rewrite Hx; apply Hs].
    destruct Hx as (entry & -> & Hentry). rewrite dict_get_set.
    destruct (String.eqb k x) eqn:E; [|apply Hs].
    apply String.eqb_eq in E. subst k. now intros [= <-].
Qed.

Lemma scan_loop_keys l : forall s,
  NoDup l ->
  (forall k, In k l -> scanners_get k scanners <> None /\
                       dict_get k (st_results s) = None) ->
  dict_keys (st_results (scan_loop scanners target nsfw l s))
  = dict_keys (st_results s) ++ l.
Proof.
  induction l as [|x l IH]; intros s Hnd Hl; [now rewrite app_nil_r|].
  unfold scan_loop in *. cbn [fold_left].
  inversion Hnd as [|? ? Hnotin Hnd']; subst.
  destruct (Hl x (or_introl eq_refl)) as [Hreg Hfresh].
  pose proof (scan_step_results s x) as Hx.
  destruct (scanners_get x scanners) as [c|] eqn:Hc; [|congruence].
  destruct Hx as (entry & Hres & _).
  rewrite IH; [| exact Hnd' |].
  - rewrite Hres, dict_set_fresh by exact Hfresh.
    unfold dict_keys. rewrite map_app, <- app_assoc. reflexivity.
  - intros k Hk. destruct (Hl k (or_intror Hk)) as [Hrk Hfk]. split; [exact Hrk|].
    rewrite Hres, dict_get_set_ne; [exact Hfk|].
    intros <-. apply Hnotin. now apply list_elem_of_In.
Qed.

End ScanShape.

Lemma dict_get_of_in (d : pydict) k v :
  dict_wf d -> In (k, v) d -> dict_get k d = Some v.
Proof.
  induction d as [|[k' v'] d IH]; intros Hwf Hin; [destruct Hin|].
  inversion Hwf as [|? ? Hnotin Hwf']; subst. simpl.
  destruct Hin as [[= -> ->]|Hin]; [now rewrite String.eqb_refl|].
  destruct (String.eqb k k') eqn:E; [|now apply IH].
  apply String.eqb_eq in E. subst k'. exfalso. apply Hnotin.
  apply list_elem_of_In. apply (in_map fst) in Hin. exact Hin.
Qed.

(** X19. Every entry of the session's [results] comes from a run of its own
    category's registered collector: it is either the completed entry of a
    payload that collector returned (with a scan time), or the failed entry,
    with empty data, of a message that collector raised. No other status or
    shape occurs, and no two entries share a category. *)
Theorem scan_results_shape {R : Runtime} (scanners : registry) (target : Target)
    (search_types : list string) (nsfw : bool) (w : World) :
  exists session log w' results,
    scan_target scanners target search_types nsfw w = (session, log, w') /\
    lookup_path ["results"] session = Some (JDict results) /\
    dict_wf results /\
    forall k v, In (k, v) results -> slot_of_collector scanners target nsfw k v.
Proof.
  destruct (scan_target_unfold scanners target nsfw search_types w)
    as (now & w0 & _ & Heq).
  cbv zeta in Heq.
  destruct (scan_loop_slots scanners target nsfw search_types
              (mk_scan_state [] [StartingScan target] w0)) as [Hwf Hslots].
  - constructor.
  - intros k v H. discriminate H.
  - do 4 eexists. split; [exact Heq|]. split; [reflexivity|]. split; [exact Hwf|].
    intros k v Hin. apply Hslots. now apply dict_get_of_in.
Qed.

(** X20. Requesting the categories [get_available_scanners] lists gives a
    session whose [results] has exactly those categories, in the order of
    the registry, and logs no warning. *)
Theorem scan_all_available {R : Runtime} (scanners : registry) (target : Target)
    (nsfw : bool) (w : World) :
  NoDup (get_available_scanners scanners) ->
  exists session log w' results,
    scan_target scanners target (get_available_scanners scanners) nsfw w
    = (session, log, w') /\
    lookup_path ["results"] session = Some (JDict results) /\
    dict_keys results = get_available_scanners scanners /\
    forall k, ~ In (UnknownSearchType k) log.
Proof.
  intros Hnd.
  destruct (scan_target_unfold scanners target nsfw (get_available_scanners scanners) w)
    as (now & w0 & _ & Heq).
  cbv zeta in Heq.
  assert (Hreg : forall k, In k (get_available_scanners scanners) ->
                           scanners_get k scanners <> None).
  { unfold get_available_scanners. clear. intros k.
    induction scanners as [|[k' c] r IH]; simpl; [tauto|].
    destruct (String.eqb k k') eqn:E; [discriminate|].
    intros [<-|Hin]; [now rewrite String.eqb_refl in E | now apply IH]. }
  do 4 eexists. split; [exact Heq|]. split; [reflexivity|]. split.
  - rewrite scan_loop_keys; [reflexivity | exact Hnd |].
    intros k Hk. split; [now apply Hreg | reflexivity].
  - intros k Hin. apply scan_loop_log in Hin.
    destruct Hin as [Hin|(x & Hx & Hty & Hcase)].
    + simpl in Hin. destruct Hin as [Hin|[]]. discriminate Hin.
    + simpl in Hty. injection Hty as <-.
      specialize (Hreg k Hx). destruct (scanners_get k scanners); congruence.
Qed.

Lemma scan_all_available_witness :
  exists session log w' results,
    @scan_target sample_runtime sample_scanners alice
      (get_available_scanners sample_scanners) false 0%nat = (session, log, w') /\
    lookup_path ["results"] session = Some (JDict results) /\
    dict_keys results = ["social"; "breach"; "public"; "images"; "geolocation"; "domain"].
Proof.
  destruct (@scan_all_available sample_runtime sample_scanners alice false 0%nat)
    as (session & log & w' & results & Heq & Hres & Hkeys & _).
  - apply (bool_decide_unpack _). vm_compute. exact I.
  - exists session, log, w', results. repeat split; assumption.
Defined.



(** ** The command line's search types *)

(** X22. Whatever flags are given, the search types [main] derives are
    registered categories without repetition, so the scan warns about none
    of them and its [results] has exactly these categories in this order;
    ["domain"] is never among them, although a domain collector is
    registered. *)
Theorem cli_search_types_registered {R : Runtime} (args : search_args)
    (social breach public images geolocation domain : collector)
    (target : Target) (nsfw : bool) (w : World) :
  let scanners := OSINTScanner_init social breach public images geolocation domain in
  ~ In "domain" (select_search_types args) /\
  scanners_get "domain" scanners = Some domain /\
  exists session log w' results,
    scan_target scanners target (select_search_types args) nsfw w = (session, log, w') /\
    lookup_path ["results"] session = Some (JDict results) /\
    dict_keys results = select_search_types args /\
    forall k, ~ In (UnknownSearchType k) log.
Proof.
  intros scanners.
  assert (Hsel : NoDup (select_search_types args) /\
                 ~ In "domain" (select_search_types args) /\
                 forall k, In k (select_search_types args) ->
                           scanners_get k scanners <> None).
  { destruct args as [[] [] [] [] [] []]; cbn;
      (split; [apply (bool_decide_unpack _); vm_compute; exact I|]);
      (split; [intuition discriminate|]);
      intros k Hk; simpl in Hk; decompose [or] Hk; subst; try contradiction;
        discriminate. }
  destruct Hsel as (Hnd & Hdom & Hreg).
  split; [exact Hdom|]. split; [reflexivity|].
  destruct (scan_target_unfold scanners target nsfw (select_search_types args) w)
    as (now & w0 & _ & Heq).
  cbv zeta in Heq.
  do 4 eexists. split; [exact Heq|]. split; [reflexivity|]. split.
  - rewrite scan_loop_keys; [reflexivity | exact Hnd |].
    intros k Hk. split; [now apply Hreg | reflexivity].
  - intros k Hin. apply scan_loop_log in Hin.
    destruct Hin as [Hin|(x & Hx & Hty & Hcase)].
    + simpl in Hin. destruct Hin as [Hin|[]]. discriminate Hin.
    + simpl in Hty. injection Hty as <-.
      specialize (Hreg k Hx). destruct (scanners_get k scanners); congruence.
Qed.

(** ** Configuration *)

(** X23. [get_api_key] looks at the top level first: a key bound there is
    returned whatever its value, so an empty top-level value hides a value
    under [api_keys]. Without a top-level binding the value under
    [api_keys] is returned when [api_keys] is a dictionary that has the key,
    and the empty string when [api_keys] is absent or lacks it; it raises
    [TypeError] when [api_keys] is [None], a number or a boolean. *)
Theorem get_api_key_lookup (config : pydict) (key_name : string) :
  (forall v, dict_get key_name config = Some v ->
             get_api_key config key_name = Ok v) /\
  (dict_get key_name config = None ->
   (dict_get "api_keys" config = None ->
      get_api_key config key_name = Ok (JStr "")) /\
   (forall ak, dict_get "api_keys" config = Some (JDict ak) ->
      get_api_key config key_name
      = Ok (match dict_get key_name ak with Some v => v | None => JStr "" end)) /\
   (forall v, dict_get "api_keys" config = Some v ->
      is_scalar v = true -> (forall s, v <> JStr s) ->
      get_api_key config key_name = Raise TypeError)).
Proof.
  unfold get_api_key, dict_has. split.
  - intros v Hv. rewrite Hv. cbn [py_getitem]. now rewrite Hv.
  - intros Hnone. rewrite Hnone. split; [|split].
    + intros ->. reflexivity.
    + intros ak Hak. rewrite Hak. cbn [py_getitem bind]. rewrite Hak.
      cbn [bind py_contains]. unfold dict_has.
      destruct (dict_get key_name ak) as [v|] eqn:Hv; [|reflexivity].
      cbn [bind py_getitem]. now rewrite Hv.
    + intros v Hv Hs Hstr. rewrite Hv. cbn [py_getitem bind]. rewrite Hv.
      cbn [bind]. destruct v; try discriminate Hs; try reflexivity.
      now destruct (Hstr s).
Qed.

Lemma get_api_key_lookup_witness :
  get_api_key shadowed_config "tineye_api_key" = Ok (JStr "") /\
  get_api_key shadowed_config "dehashed_api_key" = Ok (JStr "d-456") /\
  get_api_key [("api_keys", JNull)] "dehashed_api_key" = Raise TypeError.
Proof.
  split; [|split].
  - apply (proj1 (get_api_key_lookup shadowed_config "tineye_api_key")). reflexivity.
  - apply (proj1 (proj2 (proj2 (get_api_key_lookup shadowed_config "dehashed_api_key")
                           eq_refl))
             [("tineye_api_key", JStr "t-123"); ("dehashed_api_key", JStr "d-456")]).
    reflexivity.
  - apply (proj2 (proj2 (proj2 (get_api_key_lookup [("api_keys", JNull)]
                                  "dehashed_api_key") eq_refl)) JNull);
      [reflexivity | reflexivity | discriminate].
Defined.

Lemma missing_keys_loop_spec (config : pydict) (keys : list string) :
  forall missing result,
  missing_keys_loop config keys missing = Ok result ->
  exists found,
    result = missing ++ found /\
    (length found <= length keys)%nat /\
    forall key, In key found <->
      In key keys /\ exists v, get_api_key config key = Ok v /\ truthy v = false.
Proof.
  induction keys as [|k keys IH]; intros missing result H; cbn [missing_keys_loop] in H.
  - injection H as <-. exists []. rewrite app_nil_r. split; [reflexivity|].
    split; [reflexivity|]. intros key. simpl. tauto.
  - inv_bind H as value Hv.
    destruct (truthy value) eqn:Ht; cbn [negb] in H;
      apply IH in H; destruct H as (found & -> & Hlen & Hfound).
    + exists found. split; [reflexivity|]. split; [simpl; lia|].
      intros key. rewrite Hfound. simpl. split; [tauto|].
      intros [[<-|Hin] (v & Hk & Hf)]; [congruence|]. split; [exact Hin|]. eauto.
    + exists (k :: found). split; [now rewrite <- app_assoc|].
      split; [simpl; lia|]. intros key. simpl. rewrite Hfound. split.
      * intros [<-|[Hin Hex]]; [split; [now left | eauto] | split; [now right | exact Hex]].
      * intros [[<-|Hin] Hex]; [now left | right; now split].
Qed.

(** X24. When [validate_config] returns, [missing_keys] holds exactly the
    required keys whose [get_api_key] value is falsy, [valid] says whether
    there is none, [total_keys] is 7 and [available_keys] is 7 less the
    number of missing keys, so it is never negative. *)
Theorem validate_config_accounting (config : pydict) (report : json) :
  validate_config config = Ok report ->
  exists missing,
    lookup_path ["missing_keys"] report = Some (JList (map JStr missing)) /\
    (forall key, In key missing <->
       In key required_keys /\
       exists v, get_api_key config key = Ok v /\ truthy v = false) /\
    lookup_path ["valid"] report = Some (JBool (Nat.eqb (length missing) 0)) /\
    lookup_path ["total_keys"] report = Some (JInt 7) /\
    lookup_path ["available_keys"] report
    = Some (JInt (7 - Z.of_nat (length missing))) /\
    (0 <= 7 - Z.of_nat (length missing))%Z.
Proof.
  unfold validate_config. intros H. inv_bind H as missing Hloop.
  injection H as <-.
  apply missing_keys_loop_spec in Hloop.
  destruct Hloop as (found & -> & Hlen & Hfound). simpl app.
  exists found. split; [reflexivity|]. split; [exact Hfound|].
  split; [reflexivity|]. split; [reflexivity|]. split; [reflexivity|].
  simpl in Hlen. lia.
Qed.

Lemma validate_config_accounting_witness :
  exists report,
    validate_config shadowed_config = Ok report /\
    lookup_path ["available_keys"] report = Some (JInt 1) /\
    lookup_path ["valid"] report = Some (JBool false).
Proof.
  destruct (validate_config shadowed_config) as [report|e] eqn:Hv;
    [|vm_compute in Hv; discriminate Hv].
  destruct (validate_config_accounting _ _ Hv) as (missing & _).
  exists report. split; [reflexivity|].
  vm_compute in Hv. injection Hv as <-. split; reflexivity.
Defined.

Lemma dict_update_get (other : pydict) : forall (d : pydict) k,
  dict_wf other ->
  dict_get k (fold_left (fun acc kv => dict_set (fst kv) (snd kv) acc) other d)
  = match dict_get k other with
    | Some v => Some v
    | None => dict_get k d
    end.
Proof.
  induction other as [|[k' v'] other IH]; intros d k Hwf; cbn [fold_left dict_get];
    [reflexivity|].
  inversion Hwf as [|? ? Hnotin Hwf']; subst.
  rewrite IH by exact Hwf'. cbn [fst snd]. rewrite dict_get_set.
  destruct (String.eqb k k') eqn:E; [|reflexivity].
  apply String.eqb_eq in E. subst k'.
  now rewrite (dict_get_not_in k other Hnotin).
Qed.

Lemma env_loop_get (getenv : string -> option string) (mappings : list (string * string)) :
  forall (acc : pydict) var key,
  NoDup (map snd mappings) ->
  In (var, key) mappings ->
  dict_get key (fold_left (env_step getenv) mappings acc)
  = match getenv var with
    | Some value => if String.eqb value "" then dict_get key acc else Some (JStr value)
    | None => dict_get key acc
    end.
Proof.
  assert (Hother : forall ms acc key,
             ~ In key (map snd ms) ->
             dict_get key (fold_left (env_step getenv) ms acc) = dict_get key acc).
  { induction ms as [|[v k] ms IH]; intros acc key Hk; [reflexivity|].
    cbn [fold_left]. rewrite IH by (intros H; apply Hk; now right).
    unfold env_step. cbn [fst snd].
    destruct (getenv v) as [value|]; [|reflexivity].
    destruct (String.eqb value ""); [reflexivity|].
    apply dict_get_set_ne. intros ->. apply Hk. now left. }
  induction mappings as [|[v k] mappings IH]; intros acc var key Hnd Hin;
    [destruct Hin|].
  cbn [map snd] in Hnd. inversion Hnd as [|? ? Hnotin Hnd']; subst.
  cbn [fold_left]. destruct Hin as [[= -> ->]|Hin].
  - rewrite Hother by (intros H; apply Hnotin; now apply list_elem_of_In).
    unfold env_step. cbn [fst snd].
    destruct (getenv var) as [value|]; [|reflexivity].
    destruct (String.eqb value ""); [reflexivity | apply dict_get_set_eq].
  - rewrite (IH _ var key Hnd' Hin).
    assert (Hne : k <> key).
    { intros ->. apply Hnotin. apply list_elem_of_In.
      apply (in_map snd) in Hin. exact Hin. }
    assert (Hacc : dict_get key (env_step getenv acc (v, k)) = dict_get key acc).
    { unfold env_step. cbn [fst snd].
      destruct (getenv v) as [value|]; [|reflexivity].
      destruct (String.eqb value ""); [reflexivity|].
      now apply dict_get_set_ne. }
    now rewrite Hacc.
Qed.

Lemma env_loop_wf (getenv : string -> option string) (mappings : list (string * string)) :
  forall acc, dict_wf acc -> dict_wf (fold_left (env_step getenv) mappings acc).
Proof.
  induction mappings as [|m ms IH]; intros acc Hwf; [exact Hwf|].
  cbn [fold_left]. apply IH. unfold env_step.
  destruct (getenv (fst m)) as [value|]; [|exact Hwf].
  destruct (String.eqb value ""); [exact Hwf | now apply dict_set_wf].
Qed.

(** X25. The environment overrides the configuration file: when
    [load_config] returns, each key whose environment variable is set and
    non-empty has the variable's value, whatever the file says; a variable
    that is unset or empty leaves the file's value (or no value, when the
    file is missing, corrupt or unreadable). *)
Theorem load_config_env_overrides (config_file : option file)
    (getenv : string -> option string) (config : json) (var key : string) :
  load_config config_file getenv = Ok config ->
  In (var, key) env_mappings ->
  exists c,
    config = JDict c /\
    dict_get key c
    = match getenv var with
      | Some value =>
          if String.eqb value ""
          then match config_file with
               | Some (FileJson (JDict d)) => dict_get key d
               | _ => None
               end
          else Some (JStr value)
      | None =>
          match config_file with
          | Some (FileJson (JDict d)) => dict_get key d
          | _ => None
          end
      end.
Proof.
  unfold load_config, py_update. intros H Hin.
  assert (Hnd : NoDup (map snd env_mappings))
    by (apply (bool_decide_unpack _); vm_compute; exact I).
  assert (Hget := env_loop_get getenv env_mappings [] var key Hnd Hin).
  assert (Hwf : dict_wf (_load_env_config getenv))
    by (apply env_loop_wf; constructor).
  fold (_load_env_config getenv) in Hget. cbn [dict_get] in Hget.
  set (d0 := match config_file with
             | Some (FileJson j) => j
             | _ => JDict []
             end) in H.
  destruct d0 as [| | | | | |d] eqn:Hd0; try discriminate H.
  injection H as <-. eexists. split; [reflexivity|].
  rewrite dict_update_get by exact Hwf. rewrite Hget.
  assert (Hfile : dict_get key d = match config_file with
                                   | Some (FileJson (JDict d')) => dict_get key d'
                                   | _ => None
                                   end).
  { subst d0. destruct config_file as [[j| |]|]; try (now injection Hd0 as <-).
    now subst j. }
  destruct (getenv var) as [value|]; [|exact Hfile].
  destruct (String.eqb value ""); [exact Hfile | reflexivity].
Qed.

Lemma load_config_env_overrides_witness :
  exists c,
    load_config (Some (FileJson (JDict [("haveibeenpwned_api_key", JStr "from-file");
                                        ("tineye_api_key", JStr "file-tineye")])))
      sample_getenv = Ok (JDict c) /\
    dict_get "haveibeenpwned_api_key" c = Some (JStr "from-env") /\
    dict_get "tineye_api_key" c = Some (JStr "file-tineye").
Proof.
  set (cf := Some (FileJson (JDict [("haveibeenpwned_api_key", JStr "from-file");
                                    ("tineye_api_key", JStr "file-tineye")]))).
  destruct (load_config cf sample_getenv) as [config|e] eqn:Hl;
    [|vm_compute in Hl; discriminate Hl].
  destruct (load_config_env_overrides cf sample_getenv config "HIBP_API_KEY"
              "haveibeenpwned_api_key" Hl) as (c & -> & Hh); [simpl; tauto|].
  destruct (load_config_env_overrides cf sample_getenv (JDict c) "TINEYE_API_KEY"
              "tineye_api_key" Hl) as (c' & Hc' & Ht); [simpl; tauto|].
  injection Hc' as <-.
  exists c. split; [reflexivity|]. split; [exact Hh | exact Ht].
Defined.

(** ** A failure after a success *)

Lemma results_fold_wf (items : pydict) : forall r : pydict,
  dict_wf r -> dict_wf (fold_left results_step items r).
Proof.
  induction items as [|[st nd] items IH]; intros r Hwf; [exact Hwf|].
  cbn [fold_left]. apply IH. unfold results_step.
  destruct (dict_get st r) as [[| | | | | |ed]|]; try exact Hwf;
    [|now apply dict_set_wf].
  destruct nd; try exact Hwf. now apply dict_set_wf.
Qed.

(** X26. A failure after a success resets the count: when a category that
    is completed in the stored session comes back not completed (failed, with
    empty data) in the new one, the merged entry takes the new status and
    keeps the stored data when that is a mapping (any other stored data is
    replaced by the empty mapping), so the summary of the merged session
    counts 0 for the category. *)
Theorem failed_rescan_resets_counter (existing new re rn ed nd : pydict)
    (cat key status : string) :
  results_of existing = Some re -> dict_wf re ->
  results_of new = Some rn -> dict_wf rn ->
  In (cat, key) category_counters ->
  dict_get cat re = Some (JDict ed) ->
  dict_get cat rn = Some (JDict nd) ->
  dict_get "status" nd = Some (JStr status) -> status <> "completed" ->
  dict_get "data" nd = Some (JDict []) ->
  exists m rm entry,
    _merge_scan_results (JDict existing) (JDict new) = Ok (JDict m) /\
    results_of m = Some rm /\
    dict_get cat rm = Some (JDict entry) /\
    dict_get "status" entry = Some (JStr status) /\
    dict_get "data" entry
    = match dict_get "data" ed with
      | Some (JDict d) => Some (JDict d)
      | Some _ => Some (JDict [])
      | None => None
      end /\
    forall j, _generate_summary (JDict m) = Ok j ->
      exists s, j = summary_to_json s /\ summary_field cat s = Some (JInt 0).
Proof.
  intros Hre Hwfe Hrn Hwfn Hin Hed Hnd Hstatus Hne Hdata.
  unfold _merge_scan_results. cbn [py_copy bind py_get].
  assert (Hitems : py_items (match dict_get "results" new with
                             | Some v => v
                             | None => JDict []
                             end) = Ok rn).
  { unfold results_of in Hrn.
    destruct (dict_get "results" new) as [[| | | | | |r0]|]; try discriminate;
      now injection Hrn as <-. }
  rewrite Hitems. cbn [bind].
  destruct (merge_results_loop_dict rn existing re Hre) as (m & Hloop & Hrm & _).
  set (rm := fold_left results_step rn re) in *.
  assert (Hentry : dict_get cat rm = Some (JDict (_merge_search_data ed nd))).
  { unfold rm. rewrite results_fold_get by exact Hwfn. now rewrite Hnd, Hed. }
  destruct (merge_search_data_get ed nd) as (Hst & _ & Hd & _).
  rewrite Hstatus in Hst. rewrite Hdata in Hd.
  exists m, rm, (_merge_search_data ed nd).
  split; [exact Hloop|]. split; [exact Hrm|]. split; [exact Hentry|].
  split; [exact Hst|]. split.
  - rewrite Hd. destruct (dict_get "data" ed) as [d|] eqn:He; [|reflexivity].
    destruct d; reflexivity.
  - intros j Hj. rewrite (generate_summary_loop _ _ Hrm) in Hj.
    inv_bind Hj as s Hfold. injection Hj as <-.
    exists s. split; [reflexivity|].
    rewrite (summary_loop_field _ _ _ _ _ (results_fold_wf rn re Hwfe) Hin Hfold).
    fold rm. rewrite Hentry.
    unfold entry_completed, status_completed. rewrite Hst.
    assert (H0 : summary_field cat summary_init = Some (JInt 0)).
    { simpl in Hin. decompose [or] Hin; clear Hin;
        try match goal with H : (_, _) = (_, _) |- _ => injection H as <- <- end;
        try contradiction; reflexivity. }
    destruct (String.eqb status "completed") eqn:E; [|exact H0].
    apply String.eqb_eq in E. contradiction.
Qed.

Lemma failed_rescan_resets_counter_witness :
  exists m rm entry,
    _merge_scan_results breach_session breach_failed_session = Ok (JDict m) /\
    results_of m = Some rm /\
    dict_get "breach" rm = Some (JDict entry) /\
    dict_get "status" entry = Some (JStr "failed") /\
    dict_get "data" entry
    = Some (JDict [("summary", JDict [("total_breaches", JInt 1)])]) /\
    exists s, _generate_summary (JDict m) = Ok (summary_to_json s) /\
              summary_field "breach" s = Some (JInt 0).
Proof.
  destruct (failed_rescan_resets_counter
              (fields_of breach_session) (fields_of breach_failed_session)
              (results_fields breach_session) (results_fields breach_failed_session)
              [("data", JDict [("summary", JDict [("total_breaches", JInt 1)])]);
               ("scan_time", JFloat PrimFloat.one); ("status", JStr "completed")]
              [("data", JDict []); ("error", JStr "timeout"); ("status", JStr "failed")]
              "breach" "total_breaches" "failed")
    as (m & rm & entry & Hm & Hrm & He & Hst & Hd & Hsum);
    try reflexivity; try discriminate;
    try (apply (bool_decide_unpack _); vm_compute; exact I);
    try (simpl; tauto).
  exists m, rm, entry. split; [exact Hm|]. split; [exact Hrm|].
  split; [exact He|]. split; [exact Hst|]. split; [exact Hd|].
  destruct (_generate_summary (JDict m)) as [j|e] eqn:Hj.
  - destruct (Hsum j eq_refl) as (s & -> & Hs). now exists s.
  - vm_compute in Hm. injection Hm as <-. vm_compute in Hj. discriminate Hj.
Defined.

(** ** The command line's target *)

(** X27. For a command line without an input file and without a profile
    operation, [validate_inputs] lets [main] go on exactly when the target
    [main] builds passes [validate_target]: an option given as the empty
    string counts as not given in both. *)
Theorem cli_target_is_valid (args : input_args) :
  arg_given (arg_input_file args) = false ->
  validate_inputs args false = validate_target (build_target args).
Proof.
  destruct args as [email username full_name phone domain input_file].
  cbn [arg_input_file]. intros Hfile.
  destruct input_file as [[|c f]|]; try discriminate Hfile;
    destruct email as [[|c1 email]|], username as [[|c2 username]|],
      full_name as [[|c3 full_name]|], phone as [[|c4 phone]|],
      domain as [[|c5 domain]|];
    reflexivity.
Qed.

Lemma cli_target_is_valid_witness :
  validate_inputs (mk_input_args (Some "") None None (Some "+1-555-123-4567")
                     None None) false = true /\
  validate_target (build_target (mk_input_args (Some "") None None
                                   (Some "+1-555-123-4567") None None)) = true.
Proof.
  split; [reflexivity|].
  rewrite <- (cli_target_is_valid (mk_input_args (Some "") None None
                                     (Some "+1-555-123-4567") None None));
    reflexivity.
Defined.
